(** * The sales-robot task (tasks.py): a shallow embedding and its properties

    The Python module drives three kinds of collaborators: a browser
    (robocorp.browser / Playwright), a set of RPA libraries (HTTP download,
    Excel reader, PDF renderer) and the process logger.  The embedding keeps
    the control flow of every function of tasks.py (try / except / finally,
    the retry decorator, the per-row loop) and leaves the behaviour of the
    collaborators open: an environment answers every external call with
    either a normal return or an exception, and may change its own state. *)

From Stdlib Require Import List String Ascii ZArith Bool Arith Lia.
From Stdlib Require Import DecimalString.
Import ListNotations.
Open Scope string_scope.

(* ------------------------------------------------------------------ *)
(** ** Data: spreadsheet cells and rows *)

(** A cell value as the Excel reader hands it over: text, a whole number,
    a float (kept as the text Python prints for it) or an empty cell. *)
Inductive Cell : Type :=
| CStr (s : string)
| CInt (z : Z)
| CFloat (repr : string)
| CNone.

(** One row of the table is a Python dict from column name to cell, in
    column order. *)
Definition Row : Type := list (string * Cell).

Fixpoint lookup (k : string) (r : Row) : option Cell :=
  match r with
  | [] => None
  | (k', v) :: r' => if String.eqb k k' then Some v else lookup k r'
  end.

(** Python's [str(x)] on a cell. *)
Definition py_str (c : Cell) : string :=
  match c with
  | CStr s => s
  | CInt z => NilZero.string_of_int (Z.to_int z)
  | CFloat repr => repr
  | CNone => "None"
  end.

Definition is_str (c : Cell) : bool :=
  match c with CStr _ => true | _ => false end.

(** Python truthiness of a value read with [os.getenv]: [None] and the
    empty string are falsy. *)
Definition truthy (o : option string) : bool :=
  match o with
  | Some s => negb (String.eqb s "")
  | None => false
  end.

Definition env_cell (o : option string) : Cell :=
  match o with Some s => CStr s | None => CNone end.

(** [os.path.join] on a POSIX system, for two relative components. *)
Definition os_path_join (a b : string) : string := a ++ "/" ++ b.

(* ------------------------------------------------------------------ *)
(** ** Exceptions, calls, log records *)

(** Instances of Python's [Exception] that occur in a run: the module's own
    [ProcessError], the [KeyError] of a dict lookup, tenacity's [RetryError]
    (which carries the last attempt: its number and its exception), and any
    exception raised inside a library. *)
Inductive exn : Type :=
| ProcessError (msg : string)
| KeyError (key : string)
| RetryError (attempt_number : nat) (last : exn)
| LibError (msg : string).

Definition class_name (e : exn) : string :=
  match e with
  | ProcessError _ => "ProcessError"
  | KeyError _ => "KeyError"
  | RetryError _ _ => "RetryError"
  | LibError _ => "Error"
  end.

(** The text [str(e)] of an exception.  tenacity prints a [RetryError] as
    the class name followed by the repr of the finished future, which shows
    the class of the last exception but not its message; the object address
    that repr contains is left out here. *)
Definition exn_text (e : exn) : string :=
  match e with
  | ProcessError msg => msg
  | KeyError key => "'" ++ key ++ "'"
  | RetryError _ last =>
      "RetryError[<Future state=finished raised " ++ class_name last ++ ">]"
  | LibError msg => msg
  end.

(** [contains needle hay]: [needle in hay] on Python strings. *)
Definition contains (needle hay : string) : bool :=
  match String.index 0 needle hay with
  | Some _ => true
  | None => false
  end.

(** The external calls of tasks.py, with the arguments the code passes. *)
Inductive Call : Type :=
| BrowserConfigure (slowmo : Z)
| BrowserGoto (url : string)
| BrowserPage
| PageFill (selector : string) (value : Cell)
| PageSelectOption (selector value : string)
| PageClick (selector : string)
| PageScreenshot (path : string)
| LocatorInnerHtml (selector : string)
| HtmlToPdf (html path : string)
| HttpDownload (url : string) (overwrite : bool)
| OpenWorkbook (path : string)
| ReadWorksheetAsTable (name : string) (header : bool)
| CloseWorkbook.

Inductive Level : Type := INFO | ERROR.

(** An f-string before rendering: literal text and the interpolated
    values. *)
Inductive piece : Type :=
| Lit (s : string)
| FStr (s : string)
| FNat (n : nat)
| FCell (c : Cell)
| FRow (r : Row)
| FExn (e : exn).

Definition fstring : Type := list piece.

(** What a run leaves behind, in order: log records, external calls (each
    recorded when it is made, whatever its outcome) and the waits of the
    retry decorator. *)
Inductive Event : Type :=
| Log (lvl : Level) (msg : fstring)
| Called (c : Call)
| Slept (seconds : Z).

(* ------------------------------------------------------------------ *)
(** ** The environment *)

(** The collaborators and the process environment.  Every call may raise;
    [inner_html] and [read_table] return a value otherwise. *)
Record Env : Type := {
  World : Type;
  respond : Call -> World -> option exn * World;
  inner_html : string -> World -> (string + exn) * World;
  read_table : string -> bool -> World -> (list Row + exn) * World;
  USERNAME : option string;
  PASSWORD : option string
}.

(* ------------------------------------------------------------------ *)
(** ** The monad: state, trace and exceptions *)

Inductive Result (A : Type) : Type :=
| Ok (a : A)
| Raise (e : exn).
Arguments Ok {A} a.
Arguments Raise {A} e.

Definition is_ok {A} (r : Result A) : bool :=
  match r with Ok _ => true | Raise _ => false end.

Section Robot.

Variable E : Env.

(** The run state: the collaborators' state, the trace so far, and whether
    the [Files] object of [process_sales_data] holds an open workbook. *)
Record State : Type := {
  world : World E;
  trace : list Event;
  workbook_open : bool
}.

Definition M (A : Type) : Type := State -> Result A * State.

Definition ret {A} (a : A) : M A := fun s => (Ok a, s).

Definition bind {A B} (m : M A) (k : A -> M B) : M B :=
  fun s =>
    match m s with
    | (Ok a, s') => k a s'
    | (Raise e, s') => (Raise e, s')
    end.

Definition raise {A} (e : exn) : M A := fun s => (Raise e, s).

(** [try: body  except Exception as e: handler e] *)
Definition try_except {A} (body : M A) (handler : exn -> M A) : M A :=
  fun s =>
    match body s with
    | (Ok a, s') => (Ok a, s')
    | (Raise e, s') => handler e s'
    end.

(** [try: body  finally: fin] -- an exception of [fin] replaces the
    outcome of [body]. *)
Definition try_finally {A} (body : M A) (fin : M unit) : M A :=
  fun s =>
    match body s with
    | (r, s') =>
        match fin s' with
        | (Ok _, s'') => (r, s'')
        | (Raise e, s'') => (Raise e, s'')
        end
    end.

Declare Scope py_scope.
Delimit Scope py_scope with py.
Notation "x <- m ;; k" := (bind m (fun x => k))
  (at level 61, m at next level, right associativity) : py_scope.
Notation "m ;; k" := (bind m (fun _ => k))
  (at level 61, right associativity) : py_scope.
Local Open Scope py_scope.

Definition emit (ev : Event) : M unit :=
  fun s => (Ok tt, {| world := world s;
                      trace := trace s ++ [ev];
                      workbook_open := workbook_open s |}).

Definition logger_info (msg : fstring) : M unit := emit (Log INFO msg).
Definition logger_error (msg : fstring) : M unit := emit (Log ERROR msg).

(** An external call without a result: recorded, then answered by the
    environment. *)
Definition ext (c : Call) : M unit :=
  fun s =>
    let (r, w) := respond E c (world s) in
    let s' := {| world := w;
                 trace := trace s ++ [Called c];
                 workbook_open := workbook_open s |} in
    match r with
    | None => (Ok tt, s')
    | Some e => (Raise e, s')
    end.

Definition set_workbook (b : bool) : M unit :=
  fun s => (Ok tt, {| world := world s;
                      trace := trace s;
                      workbook_open := b |}).

(** [row[key]] *)
Definition getitem (r : Row) (key : string) : M Cell :=
  match lookup key r with
  | Some v => ret v
  | None => raise (KeyError key)
  end.

(** *** Collaborator wrappers *)

Definition browser_configure (slowmo : Z) : M unit := ext (BrowserConfigure slowmo).
Definition browser_goto (url : string) : M unit := ext (BrowserGoto url).
Definition browser_page : M unit := ext BrowserPage.

(** [page.fill(selector, value)]: Playwright accepts a string only and
    raises on any other value before acting on the page. *)
Definition page_fill (selector : string) (value : Cell) : M unit :=
  if is_str value then ext (PageFill selector value)
  else emit (Called (PageFill selector value)) ;;
       raise (LibError "Page.fill: value: expected string").

Definition page_select_option (selector value : string) : M unit :=
  ext (PageSelectOption selector value).
Definition page_click (selector : string) : M unit := ext (PageClick selector).
Definition page_screenshot (path : string) : M unit := ext (PageScreenshot path).

Definition locator_inner_html (selector : string) : M string :=
  fun s =>
    let (r, w) := inner_html E selector (world s) in
    let s' := {| world := w;
                 trace := trace s ++ [Called (LocatorInnerHtml selector)];
                 workbook_open := workbook_open s |} in
    match r with
    | inl html => (Ok html, s')
    | inr e => (Raise e, s')
    end.

Definition pdf_html_to_pdf (html path : string) : M unit := ext (HtmlToPdf html path).

Definition http_download (url : string) (overwrite : bool) : M unit :=
  ext (HttpDownload url overwrite).

(** [excel = Files()]: a fresh reader, holding no workbook. *)
Definition files_new : M unit := set_workbook false.

Definition open_workbook (path : string) : M unit :=
  ext (OpenWorkbook path) ;; set_workbook true.

Definition read_worksheet_as_table (name : string) (header : bool) : M (list Row) :=
  fun s =>
    let (r, w) := read_table E name header (world s) in
    let s' := {| world := w;
                 trace := trace s ++ [Called (ReadWorksheetAsTable name header)];
                 workbook_open := workbook_open s |} in
    match r with
    | inl rows => (Ok rows, s')
    | inr e => (Raise e, s')
    end.

Definition close_workbook : M unit :=
  ext CloseWorkbook ;; set_workbook false.

(** *** The retry decorator

    [@retry(stop=stop_after_attempt(n), wait=wait_fixed(d))] of tenacity:
    call the function; when it raises, stop with [RetryError] if the attempt
    number has reached [n], otherwise sleep [d] seconds and call again. *)
Fixpoint retry_loop {A} (left : nat) (attempt_number : nat) (wait_fixed : Z)
    (f : M A) : M A :=
  fun s =>
    match f s with
    | (Ok a, s') => (Ok a, s')
    | (Raise e, s') =>
        match left with
        | O => (Raise (RetryError attempt_number e), s')
        | S left' =>
            (emit (Slept wait_fixed) ;;
             retry_loop left' (S attempt_number) wait_fixed f) s'
        end
    end.

Definition retry {A} (stop_after_attempt : nat) (wait_fixed : Z) (f : M A) : M A :=
  retry_loop (stop_after_attempt - 1) 1 wait_fixed f.

(* ------------------------------------------------------------------ *)
(** ** tasks.py *)

Definition OUTPUT_DIR : string := "output".

(** [log_in] *)
Definition log_in : M unit :=
  try_except
    (logger_info [Lit "Attempting to log in..."] ;;
     browser_page ;;
     page_fill "#username" (env_cell (USERNAME E)) ;;
     page_fill "#password" (env_cell (PASSWORD E)) ;;
     page_click "button:text('Log in')" ;;
     logger_info [Lit "Login successful."])
    (fun e =>
       logger_error [Lit "Login failed."] ;;
       raise (ProcessError "Login failed.")).

(** [initialize_bot] *)
Definition initialize_bot : M unit :=
  try_except
    (logger_info [Lit "Initializing browser..."] ;;
     (if negb (truthy (USERNAME E)) || negb (truthy (PASSWORD E)) then
        logger_error [Lit "Credentials are missing in the .env file."] ;;
        raise (ProcessError "Environment variables USERNAME and PASSWORD are required.")
      else ret tt) ;;
     browser_configure 100 ;;
     browser_goto "https://robotsparebinindustries.com/" ;;
     log_in ;;
     logger_info [Lit "Initialization complete."])
    (fun e =>
       logger_error [Lit "Initialization failed: "; FExn e] ;;
       raise (ProcessError "Initialization failed.")).

(** The body of [download_excel_file], one attempt. *)
Definition download_attempt : M unit :=
  try_except
    (logger_info [Lit "Downloading Excel file..."] ;;
     http_download "https://robotsparebinindustries.com/SalesData.xlsx" true ;;
     logger_info [Lit "Excel file downloaded successfully."])
    (fun e =>
       logger_error [Lit "Failed to download Excel file."] ;;
       raise (ProcessError "Failed to download Excel file.")).

(** [download_excel_file], under its decorator. *)
Definition download_excel_file : M unit := retry 3 2 download_attempt.

(** [fill_and_submit_sales_form] *)
Definition fill_and_submit_sales_form (sales_rep : Row) : M unit :=
  try_except
    (browser_page ;;
     v <- getitem sales_rep "First Name" ;; page_fill "#firstname" v ;;
     v <- getitem sales_rep "Last Name" ;; page_fill "#lastname" v ;;
     v <- getitem sales_rep "Sales Target" ;; page_select_option "#salestarget" (py_str v) ;;
     v <- getitem sales_rep "Sales" ;; page_fill "#salesresult" (CStr (py_str v)) ;;
     page_click "text=Submit" ;;
     fn <- getitem sales_rep "First Name" ;;
     ln <- getitem sales_rep "Last Name" ;;
     logger_info [Lit "Form submitted for "; FCell fn; Lit " "; FCell ln])
    (fun e =>
       logger_error [Lit "Failed to submit form for "; FRow sales_rep; Lit ": "; FExn e] ;;
       raise e).

(** One pass of the [for row in data_rows] loop of [process_sales_data]. *)
Definition process_row (row : Row) : M unit :=
  try_except
    (fn <- getitem row "First Name" ;;
     ln <- getitem row "Last Name" ;;
     logger_info [Lit "Processing data for "; FCell fn; Lit " "; FCell ln] ;;
     fill_and_submit_sales_form row)
    (fun e =>
       logger_error [Lit "Error processing row "; FRow row; Lit ": "; FExn e]).

(** The loop itself. *)
Fixpoint process_rows (data_rows : list Row) : M unit :=
  match data_rows with
  | [] => ret tt
  | row :: rest => process_row row ;; process_rows rest
  end.

(** Lines 93-97 of [process_sales_data]: download, open, read, close. *)
Definition load_rows : M (list Row) :=
  download_excel_file ;;
  files_new ;;
  open_workbook "SalesData.xlsx" ;;
  data_rows <- read_worksheet_as_table "data" true ;;
  close_workbook ;;
  ret data_rows.

(** [process_sales_data] *)
Definition process_sales_data : M unit :=
  try_except
    (data_rows <- load_rows ;;
     logger_info [Lit "Processing "; FNat (List.length data_rows); Lit " rows of sales data..."] ;;
     process_rows data_rows ;;
     logger_info [Lit "All sales data processed."])
    (fun e =>
       logger_error [Lit "Error during data processing: "; FExn e] ;;
       raise (ProcessError "Failed to process sales data.")).

Definition screenshot_path : string := os_path_join OUTPUT_DIR "sales_summary.png".
Definition pdf_path : string := os_path_join OUTPUT_DIR "sales_results.pdf".

(** Lines 129-142 of [end_process]: screenshot and PDF export. *)
Definition export_steps : M unit :=
  logger_info [Lit "Taking screenshot and exporting results to PDF..."] ;;
  browser_page ;;
  page_screenshot screenshot_path ;;
  logger_info [Lit "Screenshot saved to "; FStr screenshot_path] ;;
  sales_results_html <- locator_inner_html "#sales-results" ;;
  pdf_html_to_pdf sales_results_html pdf_path ;;
  logger_info [Lit "PDF export completed and saved to "; FStr pdf_path].

(** Lines 144-145 of [end_process]: log out. *)
Definition logout_steps : M unit :=
  page_click "text=Log out" ;;
  logger_info [Lit "Logged out successfully."].

(** [end_process] *)
Definition end_process : M unit :=
  try_except
    (export_steps ;; logout_steps)
    (fun e => logger_error [Lit "End process failed: "; FExn e]).

(** The [try] block of [robot_spare_bin_python]. *)
Definition main_steps : M unit :=
  logger_info [Lit "Starting the robot process..."] ;;
  initialize_bot ;;
  process_sales_data ;;
  logger_info [Lit "Process completed successfully."].

(** The [try] / [except Exception] of [robot_spare_bin_python]. *)
Definition guarded_main : M unit :=
  try_except main_steps
    (fun e => logger_error [Lit "An unexpected error occurred: "; FExn e]).

(** [robot_spare_bin_python]: try / except Exception / finally. *)
Definition robot_spare_bin_python : M unit :=
  try_finally guarded_main end_process.

End Robot.

Arguments Build_State {E} _ _ _.
Arguments world {E} _.
Arguments trace {E} _.
Arguments workbook_open {E} _.

(* ------------------------------------------------------------------ *)
(** ** Reading a trace *)

Open Scope list_scope.

Definition count (p : Event -> bool) (t : list Event) : nat :=
  List.length (filter p t).

Definition level_eqb (a b : Level) : bool :=
  match a, b with
  | INFO, INFO => true
  | ERROR, ERROR => true
  | _, _ => false
  end.

(** A log record of level [lvl] whose text starts with the literal
    [head]. *)
Definition log_starts (lvl : Level) (head : string) (ev : Event) : bool :=
  match ev with
  | Log l (Lit s :: _) => level_eqb l lvl && String.eqb s head
  | _ => false
  end.

(** First action of [end_process]. *)
Definition is_finalizer_start : Event -> bool :=
  log_starts INFO "Taking screenshot and exporting results to PDF...".

(** First action of [process_sales_data] (through [download_excel_file]). *)
Definition is_download_start : Event -> bool :=
  log_starts INFO "Downloading Excel file...".

(** The per-row records of the loop of [process_sales_data]. *)
Definition is_intent : Event -> bool := log_starts INFO "Processing data for ".
Definition is_row_error : Event -> bool := log_starts ERROR "Error processing row ".
Definition is_form_submitted : Event -> bool := log_starts INFO "Form submitted for ".

(** Any network or UI action. *)
Definition is_call (ev : Event) : bool :=
  match ev with Called _ => true | _ => false end.

Definition is_page_call (ev : Event) : bool :=
  match ev with Called BrowserPage => true | _ => false end.

Definition is_download_call (ev : Event) : bool :=
  match ev with Called (HttpDownload _ _) => true | _ => false end.

Definition is_sleep (ev : Event) : bool :=
  match ev with Slept _ => true | _ => false end.

Definition is_logout_click (ev : Event) : bool :=
  match ev with
  | Called (PageClick sel) => String.eqb sel "text=Log out"
  | _ => false
  end.

Definition is_screenshot_call (ev : Event) : bool :=
  match ev with Called (PageScreenshot _) => true | _ => false end.

(** A submission attempt shows in the trace as the intent record of the
    loop followed by the [browser.page()] call that opens
    [fill_and_submit_sales_form]. *)
Definition is_attempt_mark (ev : Event) : bool :=
  is_intent ev || is_page_call ev.

Definition attempt_marks (row : Row) : list Event :=
  match lookup "First Name" row, lookup "Last Name" row with
  | Some fn, Some ln =>
      [Log INFO [Lit "Processing data for "; FCell fn; Lit " "; FCell ln];
       Called BrowserPage]
  | _, _ => []
  end.

(** A record of the data model names its first and last name. *)
Definition has_names (row : Row) : bool :=
  match lookup "First Name" row, lookup "Last Name" row with
  | Some _, Some _ => true
  | _, _ => false
  end.



Definition SALES_DATA_URL : string :=
  "https://robotsparebinindustries.com/SalesData.xlsx".

Definition is_close_call (ev : Event) : bool :=
  match ev with Called CloseWorkbook => true | _ => false end.

(** The calls of one successful submission, with the values as the form
    receives them. *)
Definition submission (fn ln target sales : Cell) : list Event :=
  [Called BrowserPage;
   Called (PageFill "#firstname" fn);
   Called (PageFill "#lastname" ln);
   Called (PageSelectOption "#salestarget" (py_str target));
   Called (PageFill "#salesresult" (CStr (py_str sales)));
   Called (PageClick "text=Submit");
   Log INFO [Lit "Form submitted for "; FCell fn; Lit " "; FCell ln]].

(** The two error records of a record whose submission raised [e]: the one
    of [fill_and_submit_sales_form], then the one of the loop. *)
Definition skipped (row : Row) (e : exn) : list Event :=
  [Log ERROR [Lit "Failed to submit form for "; FRow row; Lit ": "; FExn e];
   Log ERROR [Lit "Error processing row "; FRow row; Lit ": "; FExn e]].

(** [s] with [t] appended to its trace. *)
Definition logged {E : Env} (s : State E) (t : list Event) : State E :=
  {| world := world s; trace := trace s ++ t; workbook_open := workbook_open s |}.

(* ------------------------------------------------------------------ *)
(** ** Concrete environments *)

(** A stateless environment given by the set of calls that raise, the
    answer of the table reader and the markup of the results region. *)
Definition scripted (fails : Call -> bool) (table : list Row + exn)
    (html : string + exn) (user pass : option string) : Env :=
  {| World := unit;
     respond := fun c w =>
       (if fails c then Some (LibError "collaborator failed") else None, w);
     inner_html := fun _ w => (html, w);
     read_table := fun _ _ w => (table, w);
     USERNAME := user;
     PASSWORD := pass |}.

Definition nothing_fails (c : Call) : bool := false.

Definition sample_rows : list Row :=
  [ [("First Name", CStr "Jane"); ("Last Name", CStr "Doe");
     ("Sales Target", CInt 200); ("Sales", CInt 150)];
    [("First Name", CInt 7); ("Last Name", CStr "Roe");
     ("Sales Target", CInt 100); ("Sales", CInt 90)];
    [("First Name", CStr "Ann"); ("Last Name", CStr "Lee");
     ("Sales Target", CInt 300); ("Sales", CFloat "310.5")] ].

Definition headerless_rows : list Row :=
  [ [("Name", CStr "Jane Doe"); ("Sales Target", CInt 200); ("Sales", CInt 150)];
    [("Name", CStr "Ann Lee"); ("Sales Target", CInt 300); ("Sales", CInt 310)] ].

Definition results_html : string := "<table><tr><td>Jane</td></tr></table>".

Definition env_happy : Env :=
  scripted nothing_fails (inl sample_rows) (inl results_html)
    (Some "maria") (Some "thoushallnotpass").

Definition env_no_username : Env :=
  scripted nothing_fails (inl sample_rows) (inl results_html)
    None (Some "thoushallnotpass").

Definition env_empty_password : Env :=
  scripted nothing_fails (inl sample_rows) (inl results_html)
    (Some "maria") (Some "").

Definition download_fails (c : Call) : bool :=
  match c with HttpDownload _ _ => true | _ => false end.

Definition screenshot_fails (c : Call) : bool :=
  match c with PageScreenshot _ => true | _ => false end.

Definition env_download_down : Env :=
  scripted download_fails (inl sample_rows) (inl results_html)
    (Some "maria") (Some "thoushallnotpass").

Definition env_read_fails : Env :=
  scripted nothing_fails (inr (LibError "Worksheet 'data' does not exist"))
    (inl results_html) (Some "maria") (Some "thoushallnotpass").

Definition env_headerless : Env :=
  scripted nothing_fails (inl headerless_rows) (inl results_html)
    (Some "maria") (Some "thoushallnotpass").

Definition env_screenshot_fails : Env :=
  scripted screenshot_fails (inl sample_rows) (inl results_html)
    (Some "maria") (Some "thoushallnotpass").

Definition env_no_results_region : Env :=
  scripted nothing_fails (inl sample_rows)
    (inr (LibError "Locator.inner_html: no element matches #sales-results"))
    (Some "maria") (Some "thoushallnotpass").

Definition jane : Row :=
  [("First Name", CStr "Jane"); ("Last Name", CStr "Doe");
   ("Sales Target", CInt 200); ("Sales", CInt 150)].

Definition seven : Row :=
  [("First Name", CInt 7); ("Last Name", CStr "Roe");
   ("Sales Target", CInt 100); ("Sales", CInt 90)].

(** The state a run starts from. *)
Definition initial (E : Env) (w : World E) : State E :=
  {| world := w; trace := []; workbook_open := false |}.

(** The trace of a whole run of the task from [initial]. *)
Definition run_trace (E : Env) (w : World E) : list Event :=
  trace (snd (robot_spare_bin_python E (initial E w))).

(** [emits P m]: whatever the state, [m] only appends to the trace, and
    every event it appends satisfies [P]. *)
Definition emits {E : Env} {A : Type} (P : Event -> bool) (m : M E A) : Prop :=
  forall s, exists t, trace (snd (m s)) = trace s ++ t /\ forallb P t = true.

Definition any_event (ev : Event) : bool := true.

(** [starts_with ev P m]: the first thing [m] does is to append [ev]; what
    it appends after that satisfies [P]. *)
Definition starts_with {E : Env} {A : Type} (ev : Event) (P : Event -> bool)
    (m : M E A) : Prop :=
  forall s, exists t,
    trace (snd (m s)) = trace s ++ ev :: t /\ forallb P t = true.

(** Neither the first record of the finalizer nor the first record of the
    batch phase. *)
Definition quiet (ev : Event) : bool :=
  negb (is_finalizer_start ev) && negb (is_download_start ev).

Definition not_finalizer_start (ev : Event) : bool :=
  negb (is_finalizer_start ev).

Definition finalizer_start : Event :=
  Log INFO [Lit "Taking screenshot and exporting results to PDF..."].

Definition download_start : Event :=
  Log INFO [Lit "Downloading Excel file..."].

(** The state in which [robot_spare_bin_python] calls [initialize_bot]. *)
Definition started {E : Env} (s : State E) : State E :=
  snd (logger_info E [Lit "Starting the robot process..."] s).

(* ------------------------------------------------------------------ *)
(** ** Further readings of a trace *)

(** [moved s w t]: [s] with the collaborators in state [w] and [t]
    appended to the trace. *)
Definition moved {E : Env} (s : State E) (w : World E) (t : list Event) : State E :=
  {| world := w; trace := trace s ++ t; workbook_open := workbook_open s |}.

(** *** Doing things in order

    A second reading of the functions of tasks.py, against which the
    embedding is compared: a function body is a list of steps, made in
    order, and the first call that raises ends it. *)

Inductive step : Type :=
| Do (c : Call)
| Note (ev : Event).

(** The answer to one call: a fill with a value that is not text raises
    without reaching the page, anything else is answered by the
    environment. *)
Definition answer (E : Env) (c : Call) (w : World E) : option exn * World E :=
  match c with
  | PageFill _ v =>
      if is_str v then respond E c w
      else (Some (LibError "Page.fill: value: expected string"), w)
  | _ => respond E c w
  end.

(** [in_order E steps w]: the events of making [steps] in order from [w],
    the exception of the first call that raised (the steps after it are not
    made), and the state of the collaborators after the last step made. *)
Fixpoint in_order (E : Env) (steps : list step) (w : World E)
    : list Event * option exn * World E :=
  match steps with
  | [] => ([], None, w)
  | Note ev :: rest =>
      let '(t, r, w') := in_order E rest w in (ev :: t, r, w')
  | Do c :: rest =>
      match answer E c w with
      | (Some e, w') => ([Called c], Some e, w')
      | (None, w') =>
          let '(t, r, w'') := in_order E rest w' in (Called c :: t, r, w'')
      end
  end.

(** The steps of [log_in]. *)
Definition login_script (E : Env) : list step :=
  [Note (Log INFO [Lit "Attempting to log in..."]);
   Do BrowserPage;
   Do (PageFill "#username" (env_cell (USERNAME E)));
   Do (PageFill "#password" (env_cell (PASSWORD E)));
   Do (PageClick "button:text('Log in')");
   Note (Log INFO [Lit "Login successful."])].

(** The steps of [initialize_bot] before it calls [log_in], with both
    credentials present. *)
Definition initialize_script : list step :=
  [Note (Log INFO [Lit "Initializing browser..."]);
   Do (BrowserConfigure 100);
   Do (BrowserGoto "https://robotsparebinindustries.com/")].

Definition initialization_failed (cause : exn) : Event :=
  Log ERROR [Lit "Initialization failed: "; FExn cause].

(** The steps of [end_process] before the read of the results region, and
    its steps after the read returned [html]. *)
Definition screenshot_script : list step :=
  [Note finalizer_start;
   Do BrowserPage;
   Do (PageScreenshot "output/sales_summary.png");
   Note (Log INFO [Lit "Screenshot saved to "; FStr "output/sales_summary.png"])].

Definition render_script (html : string) : list step :=
  [Do (HtmlToPdf html "output/sales_results.pdf");
   Note (Log INFO [Lit "PDF export completed and saved to ";
                   FStr "output/sales_results.pdf"]);
   Do (PageClick "text=Log out");
   Note (Log INFO [Lit "Logged out successfully."])].

Definition end_process_failed (e : exn) : Event :=
  Log ERROR [Lit "End process failed: "; FExn e].

(** The records and the call of one download attempt. *)
Definition sales_download : Call := HttpDownload SALES_DATA_URL true.

Definition attempt_ok : list Event :=
  [download_start; Called sales_download;
   Log INFO [Lit "Excel file downloaded successfully."]].

Definition attempt_failed : list Event :=
  [download_start; Called sales_download;
   Log ERROR [Lit "Failed to download Excel file."]].

(** The steps of [fill_and_submit_sales_form] on [row]: the steps it can
    make before the first column that [row] does not have, and the
    [KeyError] of that column; with all four columns, every step and no
    error. *)
Definition form_script (row : Row) : list step * option exn :=
  match lookup "First Name" row with
  | None => ([Do BrowserPage], Some (KeyError "First Name"))
  | Some fn =>
  match lookup "Last Name" row with
  | None =>
      ([Do BrowserPage; Do (PageFill "#firstname" fn)],
       Some (KeyError "Last Name"))
  | Some ln =>
  match lookup "Sales Target" row with
  | None =>
      ([Do BrowserPage; Do (PageFill "#firstname" fn);
        Do (PageFill "#lastname" ln)],
       Some (KeyError "Sales Target"))
  | Some target =>
  match lookup "Sales" row with
  | None =>
      ([Do BrowserPage; Do (PageFill "#firstname" fn);
        Do (PageFill "#lastname" ln);
        Do (PageSelectOption "#salestarget" (py_str target))],
       Some (KeyError "Sales"))
  | Some sales =>
      ([Do BrowserPage; Do (PageFill "#firstname" fn);
        Do (PageFill "#lastname" ln);
        Do (PageSelectOption "#salestarget" (py_str target));
        Do (PageFill "#salesresult" (CStr (py_str sales)));
        Do (PageClick "text=Submit");
        Note (Log INFO [Lit "Form submitted for "; FCell fn; Lit " "; FCell ln])],
       None)
  end end end end.

Definition submit_failed (row : Row) (e : exn) : Event :=
  Log ERROR [Lit "Failed to submit form for "; FRow row; Lit ": "; FExn e].

Definition row_failed (row : Row) (e : exn) : Event :=
  Log ERROR [Lit "Error processing row "; FRow row; Lit ": "; FExn e].

(** One submission from [w]: its steps in order; the exception it ends
    with, if any, is the one of the call that raised or else the
    [KeyError] of the missing column, and it is logged. *)
Definition form_outcome (E : Env) (row : Row) (w : World E)
    : list Event * option exn * World E :=
  let '(t, r, w') := in_order E (fst (form_script row)) w in
  match r, snd (form_script row) with
  | Some e, _ => (t ++ [submit_failed row e], Some e, w')
  | None, Some e => (t ++ [submit_failed row e], Some e, w')
  | None, None => (t, None, w')
  end.

(** One pass of the loop from [w].  A row without one of the name columns
    fails at the intent record, before the form function is called; any
    other row is announced and submitted, and a submission that raised is
    logged once more by the loop. *)
Definition row_outcome (E : Env) (row : Row) (w : World E)
    : list Event * option exn * World E :=
  match lookup "First Name" row, lookup "Last Name" row with
  | Some fn, Some ln =>
      let '(t, r, w') := form_outcome E row w in
      let intent := Log INFO [Lit "Processing data for "; FCell fn; Lit " "; FCell ln] in
      match r with
      | Some e => (intent :: t ++ [row_failed row e], Some e, w')
      | None => (intent :: t, None, w')
      end
  | None, _ => ([row_failed row (KeyError "First Name")], Some (KeyError "First Name"), w)
  | Some _, None => ([row_failed row (KeyError "Last Name")], Some (KeyError "Last Name"), w)
  end.

(** The loop from [w]: the events of all rows in table order, the rows
    that raised, and the state of the collaborators at the end. *)
Fixpoint batch_outcome (E : Env) (rows : list Row) (w : World E)
    : list Event * list Row * World E :=
  match rows with
  | [] => ([], [], w)
  | row :: rest =>
      let '(t1, r, w1) := row_outcome E row w in
      let '(t2, failed, w2) := batch_outcome E rest w1 in
      (t1 ++ t2, match r with Some _ => row :: failed | None => failed end, w2)
  end.

(** A site on which the second click on Submit raises; its state counts
    the clicks on Submit. *)
Definition second_submit_fails : Env :=
  {| World := nat;
     respond := fun c w =>
       match c with
       | PageClick "text=Submit" =>
           (if Nat.eqb w 1 then Some (LibError "Timeout exceeded") else None, S w)
       | _ => (None, w)
       end;
     inner_html := fun _ w => (inl results_html, w);
     read_table := fun _ _ w => (inl sample_rows, w);
     USERNAME := Some "maria";
     PASSWORD := Some "thoushallnotpass" |}.

Definition text_rows : list Row :=
  [ [("First Name", CStr "Jane"); ("Last Name", CStr "Doe");
     ("Sales Target", CInt 200); ("Sales", CInt 150)];
    [("First Name", CStr "Rob"); ("Last Name", CStr "Roe");
     ("Sales Target", CInt 100); ("Sales", CInt 90)];
    [("First Name", CStr "Ann"); ("Last Name", CStr "Lee");
     ("Sales Target", CInt 300); ("Sales", CInt 310)] ].

Definition is_submit_click (ev : Event) : bool :=
  match ev with
  | Called (PageClick sel) => String.eqb sel "text=Submit"
  | _ => false
  end.

Definition is_login_click (ev : Event) : bool :=
  match ev with
  | Called (PageClick sel) => String.eqb sel "button:text('Log in')"
  | _ => false
  end.

Definition is_open_call (ev : Event) : bool :=
  match ev with Called (OpenWorkbook _) => true | _ => false end.

Definition is_download_ok : Event -> bool :=
  log_starts INFO "Excel file downloaded successfully.".

Definition is_download_failed : Event -> bool :=
  log_starts ERROR "Failed to download Excel file.".

(** The selectors of the data-entry form. *)
Definition form_field (sel : string) : bool :=
  String.eqb sel "#firstname" || String.eqb sel "#lastname" ||
  String.eqb sel "#salesresult".

(** What the loop over the rows may leave in the trace: log records, page
    requests, and actions on the data-entry form. *)
Definition form_event (ev : Event) : bool :=
  match ev with
  | Log _ _ => true
  | Called BrowserPage => true
  | Called (PageFill sel _) => form_field sel
  | Called (PageSelectOption sel _) => String.eqb sel "#salestarget"
  | Called (PageClick sel) => String.eqb sel "text=Submit"
  | _ => false
  end.

(** [at_most p n m]: whatever the state, [m] appends at most [n] events
    that satisfy [p]. *)
Definition at_most {E : Env} {A : Type} (p : Event -> bool) (n : nat)
    (m : M E A) : Prop :=
  forall s, exists t, trace (snd (m s)) = trace s ++ t /\ count p t <= n.

(** The last record of the [try] / [except] of [robot_spare_bin_python]. *)
Definition completed : Event :=
  Log INFO [Lit "Process completed successfully."].

Definition unexpected (msg : string) : Event :=
  Log ERROR [Lit "An unexpected error occurred: "; FExn (ProcessError msg)].

(** [keeps_workbook m]: [m] leaves the workbook of the reader as it is. *)
Definition keeps_workbook {E : Env} {A : Type} (m : M E A) : Prop :=
  forall s, workbook_open (snd (m s)) = workbook_open s.

(** An environment whose first [n] downloads fail and whose later ones
    return; its state counts the downloads made so far. *)
Definition flaky (n : nat) : Env :=
  {| World := nat;
     respond := fun c w =>
       match c with
       | HttpDownload _ _ =>
           (if Nat.ltb w n then Some (LibError "connection reset") else None, S w)
       | _ => (None, w)
       end;
     inner_html := fun _ w => (inl results_html, w);
     read_table := fun _ _ w => (inl sample_rows, w);
     USERNAME := Some "maria";
     PASSWORD := Some "thoushallnotpass" |}.

(** A record without the target column. *)
Definition no_target : Row :=
  [("First Name", CStr "Jane"); ("Last Name", CStr "Doe"); ("Sales", CInt 150)].

(* ================================================================== *)
(** * Properties *)

Lemma count_app (p : Event -> bool) (t1 t2 : list Event) :
  count p (t1 ++ t2) = count p t1 + count p t2.
Proof.
  unfold count. rewrite filter_app, length_app. reflexivity.
Qed.

Lemma count_zero_forallb (p : Event -> bool) (t : list Event) :
  forallb (fun ev => negb (p ev)) t = true -> count p t = 0.
Proof.
  unfold count. induction t as [|ev t IH]; simpl; intros H.
  - reflexivity.
  - apply andb_prop in H. destruct H as [Hev Ht].
    destruct (p ev); simpl in *; [discriminate | auto].
Qed.

Lemma existsb_false_forallb (p : Event -> bool) (t : list Event) :
  forallb (fun ev => negb (p ev)) t = true -> existsb p t = false.
Proof.
  induction t as [|ev t IH]; simpl; intros H.
  - reflexivity.
  - apply andb_prop in H. destruct H as [Hev Ht].
    destruct (p ev); simpl in *; [discriminate | auto].
Qed.

Section Properties.

Variable E : Env.

(** ** The trace only grows: rules for [emits] *)

Section Emits.

Variable P : Event -> bool.

Lemma emits_ret {A} (a : A) : emits P (ret E a).
Proof. intros s. exists []. simpl. rewrite app_nil_r. auto. Qed.

Lemma emits_raise {A} (e : exn) : emits P (@raise E A e).
Proof. intros s. exists []. simpl. rewrite app_nil_r. auto. Qed.

Lemma emits_set_workbook (b : bool) : emits P (set_workbook E b).
Proof. intros s. exists []. simpl. rewrite app_nil_r. auto. Qed.

Lemma emits_emit (ev : Event) : P ev = true -> emits P (emit E ev).
Proof. intros H s. exists [ev]. simpl. rewrite H. auto. Qed.

Lemma emits_ext (c : Call) : P (Called c) = true -> emits P (ext E c).
Proof.
  intros H s. exists [Called c]. unfold ext.
  destruct (respond E c (world s)) as [[e|] w]; simpl; rewrite H; auto.
Qed.

Lemma emits_locator_inner_html (sel : string) :
  P (Called (LocatorInnerHtml sel)) = true -> emits P (locator_inner_html E sel).
Proof.
  intros H s. exists [Called (LocatorInnerHtml sel)]. unfold locator_inner_html.
  destruct (inner_html E sel (world s)) as [[h|e] w]; simpl; rewrite H; auto.
Qed.

Lemma emits_read_worksheet_as_table (name : string) (header : bool) :
  P (Called (ReadWorksheetAsTable name header)) = true ->
  emits P (read_worksheet_as_table E name header).
Proof.
  intros H s. exists [Called (ReadWorksheetAsTable name header)].
  unfold read_worksheet_as_table.
  destruct (read_table E name header (world s)) as [[h|e] w]; simpl; rewrite H; auto.
Qed.

Lemma emits_bind {A B} (m : M E A) (k : A -> M E B) :
  emits P m -> (forall a, emits P (k a)) -> emits P (bind E m k).
Proof.
  intros Hm Hk s. unfold bind.
  destruct (Hm s) as [t1 [E1 F1]].
  destruct (m s) as [[a|e] s1]; simpl in *.
  - destruct (Hk a s1) as [t2 [E2 F2]].
    exists (t1 ++ t2). rewrite E2, E1, app_assoc, forallb_app, F1, F2. auto.
  - exists t1. auto.
Qed.

Lemma emits_try_except {A} (m : M E A) (h : exn -> M E A) :
  emits P m -> (forall e, emits P (h e)) -> emits P (try_except E m h).
Proof.
  intros Hm Hh s. unfold try_except.
  destruct (Hm s) as [t1 [E1 F1]].
  destruct (m s) as [[a|e] s1]; simpl in *.
  - exists t1. auto.
  - destruct (Hh e s1) as [t2 [E2 F2]].
    exists (t1 ++ t2). rewrite E2, E1, app_assoc, forallb_app, F1, F2. auto.
Qed.

Lemma emits_try_finally {A} (m : M E A) (fin : M E unit) :
  emits P m -> emits P fin -> emits P (try_finally E m fin).
Proof.
  intros Hm Hf s. unfold try_finally.
  destruct (Hm s) as [t1 [E1 F1]].
  destruct (m s) as [r s1]; simpl in *.
  destruct (Hf s1) as [t2 [E2 F2]].
  exists (t1 ++ t2).
  destruct (fin s1) as [[u|e] s2]; simpl in *;
    rewrite E2, E1, app_assoc, forallb_app, F1, F2; auto.
Qed.

Lemma emits_retry_loop {A} (f : M E A) (d : Z) :
  P (Slept d) = true -> emits P f ->
  forall left n, emits P (retry_loop E left n d f).
Proof.
  intros Hd Hf left. induction left as [|left IH]; intros n s; simpl;
    destruct (Hf s) as [t1 [E1 F1]];
    destruct (f s) as [[a|e] s1]; simpl in *; eauto.
  unfold bind; simpl.
  match goal with
  | |- context [retry_loop E left (S n) d f ?s2] =>
      destruct (IH (S n) s2) as [t2 [E2 F2]]
  end.
  exists (t1 ++ Slept d :: t2).
  simpl in E2. rewrite E2, E1, <- !app_assoc. simpl.
  rewrite forallb_app, F1. simpl. rewrite Hd, F2. auto.
Qed.

Lemma emits_page_fill (sel : string) (v : Cell) :
  P (Called (PageFill sel v)) = true -> emits P (page_fill E sel v).
Proof.
  intros H. unfold page_fill. destruct (is_str v).
  - apply emits_ext; assumption.
  - apply emits_bind; [apply emits_emit; assumption | intros; apply emits_raise].
Qed.

Lemma emits_getitem (r : Row) (k : string) : emits P (getitem E r k).
Proof.
  unfold getitem. destruct (lookup k r); [apply emits_ret | apply emits_raise].
Qed.

Lemma emits_process_rows (rows : list Row) :
  (forall row, emits P (process_row E row)) -> emits P (process_rows E rows).
Proof.
  intros H. induction rows as [|row rest IH]; simpl.
  - apply emits_ret.
  - apply emits_bind; auto.
Qed.

End Emits.

Lemma emits_run {A} (P : Event -> bool) (m : M E A) (s s' : State E) (r : Result A) :
  emits P m -> m s = (r, s') ->
  exists t, trace s' = trace s ++ t /\ forallb P t = true.
Proof.
  intros Hm Hs. destruct (Hm s) as [t Ht]. rewrite Hs in Ht. eauto.
Qed.

Ltac emits_step :=
  first
    [ apply emits_ret
    | apply emits_raise
    | apply emits_set_workbook
    | apply emits_getitem
    | apply emits_emit; reflexivity
    | apply emits_ext; reflexivity
    | apply emits_page_fill; reflexivity
    | apply emits_locator_inner_html; reflexivity
    | apply emits_read_worksheet_as_table; reflexivity
    | apply emits_retry_loop; [reflexivity | ]
    | apply emits_process_rows; intros ?
    | apply emits_bind; [ | intros ? ]
    | apply emits_try_except; [ | intros ? ]
    | apply emits_try_finally
    | match goal with
      | |- emits _ (if ?b then _ else _) => destruct b
      end ].

Ltac emits_tac :=
  unfold robot_spare_bin_python, guarded_main, main_steps, end_process, export_steps,
    logout_steps, process_sales_data, load_rows, process_row,
    fill_and_submit_sales_form, download_excel_file, retry, download_attempt,
    initialize_bot, log_in, close_workbook, open_workbook, files_new,
    http_download, pdf_html_to_pdf, page_screenshot, page_click,
    page_select_option, browser_page, browser_goto, browser_configure,
    logger_info, logger_error;
  repeat emits_step.

(** Every function of the module only appends to the trace. *)
Lemma robot_appends : emits any_event (robot_spare_bin_python E).
Proof. emits_tac. Qed.

Lemma end_process_appends : emits any_event (end_process E).
Proof. emits_tac. Qed.

(** ** Exceptions stop at the handlers *)

Lemma try_except_ok {A} (m : M E A) (h : exn -> M E A) (s : State E) :
  (forall e s', is_ok (fst (h e s')) = true) ->
  is_ok (fst (try_except E m h s)) = true.
Proof.
  intros Hh. unfold try_except.
  destruct (m s) as [[a|e] s']; simpl; auto.
Qed.

Lemma unit_ok (r : Result unit) : is_ok r = true -> r = Ok tt.
Proof. destruct r as [[]|e]; simpl; [reflexivity | discriminate]. Qed.

Lemma end_process_ok (s : State E) : fst (end_process E s) = Ok tt.
Proof.
  apply unit_ok. unfold end_process. apply try_except_ok. reflexivity.
Qed.

Lemma process_row_ok (row : Row) (s : State E) : fst (process_row E row s) = Ok tt.
Proof.
  apply unit_ok. unfold process_row. apply try_except_ok. reflexivity.
Qed.

Lemma process_rows_ok (rows : list Row) (s : State E) :
  fst (process_rows E rows s) = Ok tt.
Proof.
  revert s. induction rows as [|row rest IH]; intros s; simpl.
  - reflexivity.
  - unfold bind. pose proof (process_row_ok row s) as H.
    destruct (process_row E row s) as [[u|e] s1]; simpl in H.
    + apply IH.
    + discriminate.
Qed.

Lemma guarded_main_ok (s : State E) : fst (guarded_main E s) = Ok tt.
Proof.
  apply unit_ok. unfold guarded_main. apply try_except_ok. reflexivity.
Qed.

Lemma robot_unfold (s : State E) :
  robot_spare_bin_python E s =
  (fst (end_process E (snd (guarded_main E s))),
   snd (end_process E (snd (guarded_main E s)))).
Proof.
  unfold robot_spare_bin_python, try_finally.
  pose proof (guarded_main_ok s) as Hg.
  destruct (guarded_main E s) as [r s1]. simpl in *. subst r.
  pose proof (end_process_ok s1) as He.
  destruct (end_process E s1) as [r s2]. simpl in *. subst r. reflexivity.
Qed.

(** C9.  The top-level task returns normally whatever the collaborators
    do: an exception of the initialisation or of the batch phase is caught
    and logged by the task's own handler, and an exception inside the
    finalizer is caught and logged by [end_process]. *)
Theorem robot_never_raises :
  forall s : State E,
    fst (robot_spare_bin_python E s) = Ok tt /\
    match fst (main_steps E s) with
    | Raise e =>
        In (Log ERROR [Lit "An unexpected error occurred: "; FExn e])
           (trace (snd (robot_spare_bin_python E s)))
    | Ok _ => True
    end /\
    match fst (bind E (export_steps E) (fun _ => logout_steps E) (snd (guarded_main E s))) with
    | Raise e =>
        In (Log ERROR [Lit "End process failed: "; FExn e])
           (trace (snd (robot_spare_bin_python E s)))
    | Ok _ => True
    end.
Proof.
  intros s. rewrite robot_unfold. simpl. split; [apply end_process_ok | split].
  - destruct (end_process_appends (snd (guarded_main E s))) as [t [Ht _]].
    rewrite Ht. unfold guarded_main, try_except.
    destruct (main_steps E s) as [[u|e] s1]; simpl; [exact I |].
    apply in_or_app. left. apply in_or_app. right. left. reflexivity.
  - unfold end_process, try_except.
    destruct (bind E (export_steps E) (fun _ => logout_steps E) (snd (guarded_main E s)))
      as [[u|e] s2]; simpl; [exact I |].
    apply in_or_app. right. left. reflexivity.
Qed.

(** ** First events *)

Section Starts.

Variable ev : Event.
Variable P : Event -> bool.

Lemma starts_emit : starts_with ev P (emit E ev).
Proof. intros s. exists []. simpl. auto. Qed.

Lemma starts_bind {A B} (m : M E A) (k : A -> M E B) :
  starts_with ev P m -> (forall a, emits P (k a)) ->
  starts_with ev P (bind E m k).
Proof.
  intros Hm Hk s. unfold bind.
  destruct (Hm s) as [t1 [E1 F1]].
  destruct (m s) as [[a|e] s1]; simpl in *.
  - destruct (Hk a s1) as [t2 [E2 F2]].
    exists (t1 ++ t2). rewrite E2, E1, <- app_assoc, forallb_app, F1, F2. auto.
  - exists t1. auto.
Qed.

Lemma starts_try_except {A} (m : M E A) (h : exn -> M E A) :
  starts_with ev P m -> (forall e, emits P (h e)) ->
  starts_with ev P (try_except E m h).
Proof.
  intros Hm Hh s. unfold try_except.
  destruct (Hm s) as [t1 [E1 F1]].
  destruct (m s) as [[a|e] s1]; simpl in *.
  - exists t1. auto.
  - destruct (Hh e s1) as [t2 [E2 F2]].
    exists (t1 ++ t2). rewrite E2, E1, <- app_assoc, forallb_app, F1, F2. auto.
Qed.

Lemma starts_retry_loop {A} (f : M E A) (d : Z) (left n : nat) :
  P (Slept d) = true -> starts_with ev P f -> emits P f ->
  starts_with ev P (retry_loop E left n d f).
Proof.
  intros Hd Hs Hf s. destruct left as [|left]; simpl;
    destruct (Hs s) as [t1 [E1 F1]];
    destruct (f s) as [[a|e] s1]; simpl in *; eauto.
  unfold bind; simpl.
  match goal with
  | |- context [retry_loop E left (S n) d f ?s2] =>
      destruct (emits_retry_loop P f d Hd Hf left (S n) s2) as [t2 [E2 F2]]
  end.
  exists (t1 ++ Slept d :: t2).
  simpl in E2. rewrite E2, E1, <- !app_assoc. simpl.
  rewrite forallb_app, F1. simpl. rewrite Hd, F2. auto.
Qed.

End Starts.

Ltac starts_tac :=
  unfold end_process, export_steps, process_sales_data, load_rows,
    download_excel_file, retry, download_attempt, logger_info, logger_error;
  repeat first
    [ apply starts_emit
    | apply starts_retry_loop; [reflexivity | | emits_tac]
    | apply starts_bind; [ | intros ?; emits_tac ]
    | apply starts_try_except; [ | intros ?; emits_tac ] ].

Lemma end_process_starts : starts_with finalizer_start quiet (end_process E).
Proof. starts_tac. Qed.

Lemma process_sales_data_starts :
  starts_with download_start not_finalizer_start (process_sales_data E).
Proof. starts_tac. Qed.

Lemma initialize_bot_quiet : emits quiet (initialize_bot E).
Proof. emits_tac. Qed.

Lemma forallb_quiet_counts (t : list Event) :
  forallb quiet t = true ->
  count is_finalizer_start t = 0 /\ existsb is_download_start t = false.
Proof.
  intros H. split.
  - apply count_zero_forallb. rewrite forallb_forall in *. intros x Hx.
    specialize (H x Hx). unfold quiet in H. apply andb_prop in H. tauto.
  - apply existsb_false_forallb. rewrite forallb_forall in *. intros x Hx.
    specialize (H x Hx). unfold quiet in H. apply andb_prop in H. tauto.
Qed.

(** What [guarded_main] appends: no finalizer record, and a download
    record exactly when [initialize_bot] returned. *)
Lemma guarded_main_trace (s : State E) :
  exists t,
    trace (snd (guarded_main E s)) = trace s ++ t /\
    count is_finalizer_start t = 0 /\
    existsb is_download_start t = is_ok (fst (initialize_bot E (started s))).
Proof.
  unfold guarded_main, try_except, main_steps, bind, started. simpl.
  match goal with
  | |- context [initialize_bot E ?s0] =>
      pose proof (initialize_bot_quiet s0) as [ti [Ei Fi]];
      destruct (initialize_bot E s0) as [[u|e] s1]
  end; simpl in *;
    apply forallb_quiet_counts in Fi; destruct Fi as [Fi1 Fi2];
    unfold count in *.
  - pose proof (process_sales_data_starts s1) as [tp [Ep Fp]].
    apply (count_zero_forallb is_finalizer_start) in Fp. unfold count in Fp.
    destruct (process_sales_data E s1) as [[u'|e'] s2]; simpl in *;
      (eexists; rewrite Ep, Ei, <- !app_assoc; split; [reflexivity|]);
      simpl; rewrite !filter_app, !length_app, !existsb_app, Fi1, Fi2; simpl;
      rewrite filter_app, length_app, Fp; simpl; auto.
  - eexists. rewrite Ei, <- !app_assoc. split; [reflexivity|].
    simpl. rewrite !filter_app, !length_app, !existsb_app, Fi1, Fi2. simpl. auto.
Qed.

(** C1 (amended).  The finalizer runs exactly once in every run, after
    everything else, whether [initialize_bot] returned or raised; the batch
    phase is attempted exactly when [initialize_bot] returned, and then it
    is attempted before the finalizer starts. *)
Theorem finalizer_runs_once_in_every_run :
  forall s : State E,
    exists t_main t_fin,
      trace (snd (guarded_main E s)) = trace s ++ t_main /\
      trace (snd (robot_spare_bin_python E s)) = trace s ++ t_main ++ t_fin /\
      count is_finalizer_start t_main = 0 /\
      count is_finalizer_start t_fin = 1 /\
      existsb is_download_start t_fin = false /\
      existsb is_download_start t_main =
        is_ok (fst (initialize_bot E (started s))).
Proof.
  intros s. rewrite robot_unfold. simpl.
  destruct (guarded_main_trace s) as [tm [Em [Cm Dm]]].
  destruct (end_process_starts (snd (guarded_main E s))) as [tf [Ef Ff]].
  exists tm, (finalizer_start :: tf).
  rewrite Ef, Em, <- app_assoc.
  apply forallb_quiet_counts in Ff. destruct Ff as [Ff1 Ff2].
  repeat split; auto.
  unfold count in *. simpl. rewrite Ff1. reflexivity.
Qed.

(** ** The finalizer *)

Ltac exec_step :=
  match goal with
  | |- context [respond E ?c ?x] =>
      destruct (respond E c x) as [[?e|] ?w] eqn:?
  | |- context [inner_html E ?c ?x] =>
      destruct (inner_html E c x) as [[?h|?e] ?w] eqn:?
  | |- context [read_table E ?n ?b ?x] =>
      destruct (read_table E n b x) as [[?rows|?e] ?w] eqn:?
  end; simpl.

Ltac exec :=
  unfold try_except, bind, page_screenshot, page_click, page_select_option,
    pdf_html_to_pdf, browser_page, browser_goto, browser_configure,
    http_download, locator_inner_html, read_worksheet_as_table, logger_info,
    logger_error, emit, ext, ret, raise;
  simpl; repeat exec_step.

Ltac same_state :=
  unfold moved; simpl; rewrite <- ?app_assoc; reflexivity.

(** C7.  A failure inside [end_process] stays inside it: [end_process]
    returns normally, leaves the trace it found as a prefix of the trace it
    hands back, ends with the error record of the failure when a step
    raised, and the whole task returns normally with everything recorded up
    to the finalizer unchanged. *)
Theorem export_failure_is_contained :
  forall s : State E,
    fst (end_process E s) = Ok tt /\
    (exists t, trace (snd (end_process E s)) = trace s ++ t) /\
    match fst (bind E (export_steps E) (fun _ => logout_steps E) s) with
    | Raise e =>
        exists t, trace (snd (end_process E s)) =
                  t ++ [Log ERROR [Lit "End process failed: "; FExn e]]
    | Ok _ => True
    end /\
    fst (robot_spare_bin_python E s) = Ok tt /\
    (exists t, trace (snd (robot_spare_bin_python E s)) =
               trace (snd (guarded_main E s)) ++ t).
Proof.
  intros s. split; [apply end_process_ok | split; [| split; [| split]]].
  - destruct (end_process_appends s) as [t [Ht _]]. eauto.
  - unfold end_process, try_except.
    destruct (bind E (export_steps E) (fun _ => logout_steps E) s)
      as [[u|e] s1]; simpl; eauto.
  - rewrite robot_unfold. apply end_process_ok.
  - rewrite robot_unfold. simpl.
    destruct (end_process_appends (snd (guarded_main E s))) as [t [Ht _]]. eauto.
Qed.

(** C6 (amended).  The finalizer always starts the export; the logout
    click is attempted exactly when every export step before it returned
    (page handle, screenshot, region markup, PDF render). *)
Theorem logout_only_after_successful_export :
  forall s : State E,
    exists t,
      trace (snd (end_process E s)) =
        trace s ++ finalizer_start :: Called BrowserPage :: t /\
      existsb is_logout_click t = is_ok (fst (export_steps E s)).
Proof.
  intros s. unfold end_process, export_steps, logout_steps. exec;
    (eexists; split; [rewrite <- !app_assoc; reflexivity | reflexivity]).
Qed.

(** ** Initialisation *)

(** C8.  With a credential absent or empty, [initialize_bot] fails with the
    module's [ProcessError] after three log records and no call to any
    collaborator: the state of the collaborators is untouched. *)
Theorem missing_credentials_fail_before_any_call :
  forall s : State E,
    truthy (USERNAME E) = false \/ truthy (PASSWORD E) = false ->
    initialize_bot E s =
      (Raise (ProcessError "Initialization failed."),
       logged s
         [Log INFO [Lit "Initializing browser..."];
          Log ERROR [Lit "Credentials are missing in the .env file."];
          Log ERROR
            [Lit "Initialization failed: ";
             FExn (ProcessError
               "Environment variables USERNAME and PASSWORD are required.")]]).
Proof.
  intros s H. unfold initialize_bot.
  assert (Hc : negb (truthy (USERNAME E)) || negb (truthy (PASSWORD E)) = true).
  { destruct H as [H|H]; rewrite H; simpl; auto using orb_true_r. }
  rewrite Hc. unfold try_except, bind, logger_info, logger_error, emit, raise.
  simpl. rewrite <- !app_assoc. reflexivity.
Qed.

(** ** The download and the load *)

(** C3 (amended).  [download_excel_file] attempts the download of the
    sales file; whenever an attempt raises, whatever the exception, it logs
    the failure, waits exactly 2 seconds and attempts again, up to three
    attempts; it returns as soon as an attempt returns, and when the third
    attempt raises too it raises tenacity's [RetryError] for attempt 3,
    whose last exception is the [ProcessError] of the attempt.  Neither the
    text of that error nor the fixed message of the [ProcessError] names
    the URL, and the message does not name the attempt count. *)
Theorem download_retries_three_times :
  forall s : State E,
    match respond E sales_download (world s) with
    | (None, w1) =>
        download_excel_file E s = (Ok tt, moved s w1 attempt_ok)
    | (Some _, w1) =>
    match respond E sales_download w1 with
    | (None, w2) =>
        download_excel_file E s =
          (Ok tt, moved s w2 (attempt_failed ++ Slept 2 :: attempt_ok))
    | (Some _, w2) =>
    match respond E sales_download w2 with
    | (None, w3) =>
        download_excel_file E s =
          (Ok tt,
           moved s w3
             (attempt_failed ++ Slept 2 :: attempt_failed ++ Slept 2 :: attempt_ok))
    | (Some _, w3) =>
        download_excel_file E s =
          (Raise (RetryError 3 (ProcessError "Failed to download Excel file.")),
           moved s w3
             (attempt_failed ++ Slept 2 :: attempt_failed ++ Slept 2
              :: attempt_failed)) /\
        contains SALES_DATA_URL
          (exn_text (RetryError 3 (ProcessError "Failed to download Excel file.")))
          = false /\
        contains SALES_DATA_URL "Failed to download Excel file." = false /\
        contains "3" "Failed to download Excel file." = false
    end end end.
Proof.
  intros s. unfold download_excel_file, retry, download_attempt, sales_download,
    SALES_DATA_URL. simpl.
  exec; first [same_state | split; [same_state | repeat split]].
Qed.

Lemma load_rows_closes_on_success (s : State E) :
  match fst (load_rows E s) with
  | Ok _ => workbook_open (snd (load_rows E s)) = false
  | Raise _ => True
  end.
Proof.
  unfold load_rows, bind.
  destruct (download_excel_file E s) as [[u|e] s1]; simpl; auto.
  unfold files_new, open_workbook, close_workbook, set_workbook. exec; auto.
Qed.

(** When the read raises after the workbook was opened, nothing closes
    the workbook: it is still open when [process_sales_data] has raised. *)
Lemma read_failure_leaves_workbook_open (s s1 : State E) (w2 w3 : World E)
    (e : exn) :
  download_excel_file E s = (Ok tt, s1) ->
  respond E (OpenWorkbook "SalesData.xlsx") (world s1) = (None, w2) ->
  read_table E "data" true w2 = (inr e, w3) ->
  fst (process_sales_data E s) = Raise (ProcessError "Failed to process sales data.") /\
  workbook_open (snd (process_sales_data E s)) = true.
Proof.
  intros Hd Ho Hr.
  unfold process_sales_data, load_rows, try_except, bind. rewrite Hd.
  unfold files_new, open_workbook, read_worksheet_as_table, set_workbook,
    bind, ext, logger_error, emit, raise. simpl.
  rewrite Ho. simpl. rewrite Hr. simpl. split; reflexivity.
Qed.







(** ** The batch loop *)

Ltac exec_row :=
  unfold fill_and_submit_sales_form, page_fill, getitem;
  unfold try_except, bind, page_click, page_select_option, browser_page,
    logger_info, logger_error, emit, ext, ret, raise;
  simpl;
  repeat
    (match goal with
     | |- context [respond E ?c ?x] =>
         destruct (respond E c x) as [[?e|] ?w] eqn:?
     | |- context [lookup ?k ?r] =>
         destruct (lookup k r) as [[?v|?z|?v|]|] eqn:?
     end; simpl).

Ltac exec_outcome :=
  simpl;
  repeat
    (match goal with
     | |- context [lookup ?k ?r] =>
         destruct (lookup k r) as [[?v|?z|?v|]|] eqn:?
     end; simpl);
  repeat
    (match goal with
     | |- context [respond E ?c ?x] =>
         destruct (respond E c x) as [[?e|] ?w] eqn:?
     end; simpl).

(** The form function does what [form_outcome] says: its steps in source
    order up to the first that raises or the first missing column. *)
Lemma fill_and_submit_refines (row : Row) (s : State E) :
  fill_and_submit_sales_form E row s =
  let '(t, r, w) := form_outcome E row (world s) in
  (match r with None => Ok tt | Some e => Raise e end, moved s w t).
Proof.
  unfold form_outcome, form_script, answer.
  unfold fill_and_submit_sales_form, page_fill, getitem.
  unfold try_except, bind, page_click, page_select_option, browser_page,
    logger_info, logger_error, emit, ext, ret, raise.
  exec_outcome; same_state.
Qed.

Lemma process_row_refines (row : Row) (s : State E) :
  process_row E row s =
  let '(t, r, w) := row_outcome E row (world s) in (Ok tt, moved s w t).
Proof.
  unfold process_row, row_outcome, try_except, bind, getitem.
  destruct (lookup "First Name" row) as [fn|]; [|same_state].
  destruct (lookup "Last Name" row) as [ln|]; [|same_state].
  unfold logger_info, logger_error, emit, ret. simpl.
  rewrite fill_and_submit_refines. simpl.
  destruct (form_outcome E row (world s)) as [[t [e|]] w]; same_state.
Qed.

Lemma process_rows_refines (rows : list Row) (s : State E) :
  process_rows E rows s =
  let '(t, failed, w) := batch_outcome E rows (world s) in
  (Ok tt, moved s w t).
Proof.
  revert s. induction rows as [|row rest IH]; intros s; simpl.
  - unfold ret, moved. destruct s. simpl. rewrite app_nil_r. reflexivity.
  - unfold bind. rewrite process_row_refines.
    destruct (row_outcome E row (world s)) as [[t1 r] w1]. rewrite IH. simpl.
    destruct (batch_outcome E rest w1) as [[t2 failed] w2]. same_state.
Qed.

(** What one pass of the loop leaves in the trace. *)
Lemma row_outcome_counts (row : Row) (w : World E) :
  let '(t, r, w') := row_outcome E row w in
  filter is_attempt_mark t = attempt_marks row /\
  count is_page_call t = (if has_names row then 1 else 0) /\
  count is_row_error t = (match r with Some _ => 1 | None => 0 end) /\
  count is_form_submitted t = (match r with Some _ => 0 | None => 1 end).
Proof.
  unfold row_outcome, form_outcome, form_script, attempt_marks, has_names,
    answer, count.
  exec_outcome; repeat split.
Qed.

(** C2 (amended).  The loop returns normally and handles the rows in
    table order, each as [row_outcome] says: a row that names first and
    last name is announced and gets one submission attempt, made of the
    page request and the form steps in source order up to the first that
    raises; a row without one of the two name columns fails before the
    form function is called.  With N rows of which K raised in the run,
    the trace holds exactly K row failures and exactly N - K submitted
    forms, and one page request per row with both names. *)
Theorem every_row_is_handled_in_order :
  forall (rows : list Row) (s : State E),
    let '(t, failed, w) := batch_outcome E rows (world s) in
    process_rows E rows s = (Ok tt, moved s w t) /\
    filter is_attempt_mark t = flat_map attempt_marks rows /\
    count is_page_call t = List.length (filter has_names rows) /\
    count is_row_error t = List.length failed /\
    count is_form_submitted t = List.length rows - List.length failed /\
    List.length failed <= List.length rows.
Proof.
  intros rows s. pose proof (process_rows_refines rows s) as Href.
  destruct (batch_outcome E rows (world s)) as [[t failed] w] eqn:Hb.
  split; [exact Href | clear Href]. revert t failed w Hb. generalize (world s).
  induction rows as [|row rest IH]; intros w0 t failed w Hb;
    cbn [batch_outcome] in Hb.
  - inversion Hb; subst. repeat split; auto.
  - pose proof (row_outcome_counts row w0) as Hrow.
    destruct (row_outcome E row w0) as [[t1 r] w1].
    destruct (batch_outcome E rest w1) as [[t2 failed2] w2] eqn:Hrest.
    destruct (IH w1 t2 failed2 w2 Hrest) as [M2 [P2 [R2 [S2 L2]]]].
    destruct Hrow as [M1 [P1 [R1 S1]]].
    inversion Hb; subst; clear Hb.
    rewrite filter_app, !count_app, M1, M2, P1, P2, R1, R2, S1, S2.
    cbn [flat_map filter List.length].
    destruct (has_names row); destruct r; cbn [List.length];
      repeat split; auto; lia.
Qed.

(** A handler that logs and re-raises leaves its record last. *)
Lemma try_except_reraise {A} (body : M E A) (msg : exn -> fstring)
    (s s1 : State E) (e : exn) :
  emits any_event body ->
  try_except E body
    (fun e' => bind E (logger_error E (msg e')) (fun _ => raise E e')) s
    = (Raise e, s1) ->
  exists t, trace s1 = trace s ++ t ++ [Log ERROR (msg e)].
Proof.
  intros Hb. unfold try_except. destruct (Hb s) as [t [Et _]].
  destruct (body s) as [[a|e'] s']; simpl in *; intros H.
  - discriminate.
  - inversion H; subst. exists t. simpl. rewrite Et, app_assoc. reflexivity.
Qed.

Lemma fill_and_submit_raises (row : Row) (s s1 : State E) (e : exn) :
  fill_and_submit_sales_form E row s = (Raise e, s1) ->
  exists t,
    trace s1 = trace s ++ t ++
      [Log ERROR [Lit "Failed to submit form for "; FRow row; Lit ": "; FExn e]].
Proof.
  unfold fill_and_submit_sales_form. intros H.
  eapply (try_except_reraise _
            (fun e' => [Lit "Failed to submit form for "; FRow row; Lit ": "; FExn e']));
    [|exact H].
  emits_tac.
Qed.

(** A name cell that is not text makes the submission raise, whatever the
    collaborators do. *)
Lemma fill_and_submit_rejects (row : Row) (fn ln : Cell) (s : State E) :
  lookup "First Name" row = Some fn ->
  lookup "Last Name" row = Some ln ->
  is_str fn && is_str ln = false ->
  is_ok (fst (fill_and_submit_sales_form E row s)) = false.
Proof.
  intros Hfn Hln Hstr.
  unfold fill_and_submit_sales_form, page_fill, getitem. rewrite Hfn, Hln.
  destruct fn, ln; try discriminate;
    unfold try_except, bind, page_click, page_select_option, browser_page,
      logger_info, logger_error, emit, ext, ret, raise; simpl;
    repeat (exec_step; try reflexivity).
Qed.

(** C10.  The name cells reach [page.fill] as they are and the target and
    sales cells as their [str()].  With text in both name cells and an
    environment that accepts every call, the record is submitted whatever
    the target and sales cells hold; with a name cell that is not text the
    submission raises in every environment, and the loop logs the record,
    skips it and goes on with the rest. *)
Theorem names_unconverted_numbers_coerced :
  forall (row : Row) (fn ln target sales : Cell) (s : State E),
    lookup "First Name" row = Some fn ->
    lookup "Last Name" row = Some ln ->
    lookup "Sales Target" row = Some target ->
    lookup "Sales" row = Some sales ->
    (is_str fn && is_str ln = true ->
     (forall c w, fst (respond E c w) = None) ->
     fst (fill_and_submit_sales_form E row s) = Ok tt /\
     trace (snd (fill_and_submit_sales_form E row s)) =
       trace s ++ submission fn ln target sales) /\
    (is_str fn && is_str ln = false ->
     is_ok (fst (fill_and_submit_sales_form E row s)) = false /\
     fst (process_row E row s) = Ok tt /\
     (exists t e,
        trace (snd (process_row E row s)) = trace s ++ t ++ skipped row e) /\
     forall rest,
       process_rows E (row :: rest) s =
       process_rows E rest (snd (process_row E row s))).
Proof.
  intros row fn ln target sales s Hfn Hln Htarget Hsales. split.
  - intros Hstr Hacc. apply andb_prop in Hstr. destruct Hstr as [Sfn Sln].
    destruct fn; try discriminate. destruct ln; try discriminate.
    unfold submission, fill_and_submit_sales_form, page_fill, getitem.
    rewrite Hfn, Hln, Htarget, Hsales.
    unfold try_except, bind, page_click, page_select_option, browser_page,
      logger_info, logger_error, emit, ext, ret, raise. simpl.
    repeat match goal with
    | |- context [respond E ?c ?x] =>
        let H := fresh "H" in
        pose proof (Hacc c x) as H;
        destruct (respond E c x) as [[?e|] ?w]; simpl in H; [discriminate|];
        clear H; simpl
    end.
    rewrite <- !app_assoc. split; reflexivity.
  - intros Hstr. split; [|split; [apply process_row_ok | split]].
    + eapply fill_and_submit_rejects; eassumption.
    + unfold process_row, try_except, bind, getitem. rewrite Hfn, Hln.
      unfold logger_info, logger_error, emit, ret. simpl.
      match goal with
      | |- context [fill_and_submit_sales_form E row ?s0] =>
          pose proof (fill_and_submit_rejects row fn ln s0 Hfn Hln Hstr) as Hr;
          destruct (fill_and_submit_sales_form E row s0) as [[u|e] s1] eqn:Hf
      end; simpl in Hr; [discriminate|].
      apply fill_and_submit_raises in Hf. destruct Hf as [t Ht]. simpl in Ht.
      exists (Log INFO [Lit "Processing data for "; FCell fn; Lit " "; FCell ln] :: t), e.
      simpl. rewrite Ht. unfold skipped. rewrite <- !app_assoc. reflexivity.
    + intros rest. simpl. unfold bind.
      pose proof (process_row_ok row s) as Hok.
      destruct (process_row E row s) as [[u|e] s1]; simpl in *;
        [reflexivity | discriminate].
Qed.

(* ------------------------------------------------------------------ *)
(** ** Further properties *)

(** *** Login and initialisation *)

(** X1.  [log_in] makes its calls in the order page, user name, password,
    click, and stops at the first that raises.  It returns when all four
    returned; otherwise it raises [ProcessError("Login failed.")] and logs
    the fixed text only: the exception that made it fail is neither raised
    nor logged. *)
Theorem log_in_hides_the_cause :
  forall s : State E,
    log_in E s =
    let '(t, r, w) := in_order E (login_script E) (world s) in
    match r with
    | None => (Ok tt, moved s w t)
    | Some _ =>
        (Raise (ProcessError "Login failed."),
         moved s w (t ++ [Log ERROR [Lit "Login failed."]]))
    end.
Proof.
  intros s. unfold log_in, login_script, page_fill.
  destruct (USERNAME E) as [u|], (PASSWORD E) as [p|]; simpl; exec; same_state.
Qed.

(** X2.  With both credentials present, [initialize_bot] makes its calls
    in the order configure, goto, then the steps of [log_in], and stops at
    the first that raises.  It returns when all of them returned;
    otherwise it raises [ProcessError("Initialization failed.")], and its
    last record names the exception of configure or goto, or the fixed
    login error as soon as the login was entered.  With a credential
    missing it raises the same error without any call. *)
Theorem initialize_bot_order_and_error :
  forall s : State E,
    initialize_bot E s =
    if truthy (USERNAME E) && truthy (PASSWORD E) then
      let '(t1, r1, w1) := in_order E initialize_script (world s) in
      match r1 with
      | Some e =>
          (Raise (ProcessError "Initialization failed."),
           moved s w1 (t1 ++ [initialization_failed e]))
      | None =>
          let '(t2, r2, w2) := in_order E (login_script E) w1 in
          match r2 with
          | Some _ =>
              (Raise (ProcessError "Initialization failed."),
               moved s w2
                 (t1 ++ t2 ++
                  [Log ERROR [Lit "Login failed."];
                   initialization_failed (ProcessError "Login failed.")]))
          | None =>
              (Ok tt,
               moved s w2
                 (t1 ++ t2 ++ [Log INFO [Lit "Initialization complete."]]))
          end
      end
    else
      (Raise (ProcessError "Initialization failed."),
       moved s (world s)
         [Log INFO [Lit "Initializing browser..."];
          Log ERROR [Lit "Credentials are missing in the .env file."];
          initialization_failed
            (ProcessError
               "Environment variables USERNAME and PASSWORD are required.")]).
Proof.
  intros s.
  unfold initialize_bot, log_in, initialize_script, login_script, page_fill,
    initialization_failed.
  destruct (USERNAME E) as [u|], (PASSWORD E) as [p|]; simpl;
    try destruct (String.eqb u ""); try destruct (String.eqb p "");
    simpl; exec; same_state.
Qed.

(** *** The batch phase *)

Lemma raise_of_constant_handler {A} (m : M E A) (h : exn -> M E unit)
    (e0 : exn) (s : State E) (e : exn) :
  fst (try_except E m (fun e' => bind E (h e') (fun _ => raise E e0)) s) = Raise e ->
  (forall e' s', is_ok (fst (h e' s')) = true) ->
  e = e0.
Proof.
  unfold try_except, bind. intros H Hh.
  destruct (m s) as [[a|e'] s1]; simpl in H; [discriminate|].
  specialize (Hh e' s1). destruct (h e' s1) as [[u|e''] s2]; simpl in *;
    [congruence | discriminate].
Qed.

Lemma initialize_bot_raise (s : State E) (e : exn) :
  fst (initialize_bot E s) = Raise e -> e = ProcessError "Initialization failed.".
Proof.
  unfold initialize_bot. intros H.
  eapply raise_of_constant_handler; [exact H | reflexivity].
Qed.

Lemma process_sales_data_outcome (s : State E) :
  match fst (load_rows E s) with
  | Ok _ =>
      fst (process_sales_data E s) = Ok tt /\
      exists t, trace (snd (process_sales_data E s)) =
                t ++ [Log INFO [Lit "All sales data processed."]]
  | Raise cause =>
      fst (process_sales_data E s) =
        Raise (ProcessError "Failed to process sales data.") /\
      exists t, trace (snd (process_sales_data E s)) =
                t ++ [Log ERROR [Lit "Error during data processing: "; FExn cause]]
  end.
Proof.
  unfold process_sales_data, try_except, bind.
  destruct (load_rows E s) as [[rows|cause] s1]; simpl.
  - unfold logger_info, emit. simpl.
    match goal with
    | |- context [process_rows E rows ?s0] =>
        pose proof (process_rows_ok rows s0) as Hok;
        destruct (process_rows E rows s0) as [[u|e] s2]
    end; simpl in *; [|discriminate].
    split; [reflexivity | eauto].
  - split; [reflexivity | eauto].
Qed.

(** X3.  [process_sales_data] fails exactly when the load step fails.  Once
    the rows are loaded it returns normally, whatever the rows hold and
    whatever the form does, and its last record says that all data was
    processed; when the load step raised, it raises
    [ProcessError("Failed to process sales data.")] and its last record
    names the cause. *)
Theorem process_sales_data_fails_only_in_load :
  forall s : State E,
    is_ok (fst (process_sales_data E s)) = is_ok (fst (load_rows E s)) /\
    match fst (load_rows E s) with
    | Ok _ =>
        last (trace (snd (process_sales_data E s))) completed =
          Log INFO [Lit "All sales data processed."]
    | Raise cause =>
        fst (process_sales_data E s) =
          Raise (ProcessError "Failed to process sales data.") /\
        last (trace (snd (process_sales_data E s))) completed =
          Log ERROR [Lit "Error during data processing: "; FExn cause]
    end.
Proof.
  intros s. pose proof (process_sales_data_outcome s) as H.
  destruct (fst (load_rows E s)) as [rows|cause];
    destruct H as [Hr [t Ht]]; rewrite Hr, Ht, last_last; simpl; auto.
Qed.

(** X4.  The last record of the [try] / [except] of the task classifies
    the run by its phases only: it is the success record exactly when
    [initialize_bot] and the load step both returned, however many rows
    failed; otherwise it is the error record, and it names the fixed error
    of the phase, not the cause. *)
Theorem outcome_record_ignores_rows :
  forall s : State E,
    exists t,
      trace (snd (guarded_main E s)) = trace s ++ t /\
      last t completed =
        match fst (initialize_bot E (started s)) with
        | Raise _ => unexpected "Initialization failed."
        | Ok _ =>
            if is_ok (fst (load_rows E (snd (initialize_bot E (started s)))))
            then completed
            else unexpected "Failed to process sales data."
        end.
Proof.
  intros s. destruct (emits_run any_event (guarded_main E) s _ _
    ltac:(emits_tac) (surjective_pairing _)) as [t [Et _]].
  exists t. split; [exact Et|].
  assert (Hl : forall x, trace (snd (guarded_main E s)) = trace s ++ t ->
               (exists t', trace (snd (guarded_main E s)) = t' ++ [x]) ->
               t <> [] -> last t completed = x).
  { intros x H1 [t' H2] Hne. rewrite H1 in H2.
    destruct (exists_last Hne) as [t0 [y Hy]]. subst t.
    rewrite app_assoc in H2. apply app_inj_tail in H2. destruct H2 as [_ H2].
    subst y. apply last_last. }
  assert (Hne : t <> []).
  { intros ->. rewrite app_nil_r in Et. revert Et.
    unfold guarded_main, try_except, main_steps, bind, logger_info,
      logger_error, emit. simpl.
    destruct (emits_run any_event (initialize_bot E) (started s) _ _
      ltac:(emits_tac) (surjective_pairing _)) as [ti [Ei _]].
    unfold started, logger_info, emit in Ei. simpl in Ei.
    destruct (initialize_bot E _) as [[u|e] s1]; simpl in *.
    - destruct (emits_run any_event (process_sales_data E) s1 _ _
        ltac:(emits_tac) (surjective_pairing _)) as [tp [Ep _]].
      destruct (process_sales_data E s1) as [[u'|e'] s2]; simpl in *;
        rewrite Ep, Ei, <- !app_assoc; intros H;
        apply (f_equal (@List.length Event)) in H;
        rewrite !length_app in H; simpl in H; lia.
    - rewrite Ei, <- !app_assoc. intros H.
      apply (f_equal (@List.length Event)) in H.
      rewrite !length_app in H; simpl in H; lia. }
  apply Hl; [exact Et | | exact Hne].
  unfold guarded_main, try_except, main_steps, bind, started, logger_info,
    logger_error, emit. simpl.
  match goal with
  | |- context [initialize_bot E ?s0] =>
      pose proof (initialize_bot_raise s0) as Hi;
      destruct (initialize_bot E s0) as [[u|e] s1]
  end; simpl in *.
  - pose proof (process_sales_data_outcome s1) as Hp.
    destruct (fst (load_rows E s1)) as [rows|cause];
      destruct Hp as [Hr _];
      destruct (process_sales_data E s1) as [r s2]; simpl in *; subst r;
      simpl; eauto.
  - rewrite (Hi e eq_refl). simpl. eauto.
Qed.

(** X5.  The loop composes: processing a batch is processing its first
    part and then, from the state that leaves, the rest.  No row can stop
    the rows after it. *)
Theorem process_rows_app :
  forall (xs ys : list Row) (s : State E),
    process_rows E (xs ++ ys) s =
    process_rows E ys (snd (process_rows E xs s)).
Proof.
  induction xs as [|x xs IH]; intros ys s; simpl.
  - reflexivity.
  - unfold bind. pose proof (process_row_ok x s) as Hok.
    destruct (process_row E x s) as [[u|e] s1]; simpl in *;
      [apply IH | discriminate].
Qed.

(** *** The download *)

(** X6.  [download_excel_file] stops at the first attempt that returns:
    it returns exactly when the success record was written, which is then
    the last thing it did, and every attempt before that one left one
    failure record.  When it raises, every attempt left a failure record
    and no success record exists. *)
Theorem download_stops_at_first_success :
  forall s : State E,
    exists t,
      trace (snd (download_excel_file E s)) = trace s ++ t /\
      if is_ok (fst (download_excel_file E s)) then
        count is_download_ok t = 1 /\
        count is_download_failed t + 1 = count is_download_call t /\
        last t completed = Log INFO [Lit "Excel file downloaded successfully."]
      else
        count is_download_ok t = 0 /\
        count is_download_failed t = count is_download_call t /\
        last t completed = Log ERROR [Lit "Failed to download Excel file."].
Proof.
  intros s. unfold download_excel_file, retry, download_attempt. simpl.
  exec;
    (eexists; split; [rewrite <- !app_assoc; reflexivity |]);
    unfold count; simpl; repeat split.
Qed.

(** *** One record *)

(** X7.  A record without the target column is not rejected before the
    form is touched: in an environment that accepts every call, both names
    are typed into the form, then the lookup of the target raises
    [KeyError], which is logged and raised again; nothing is selected,
    nothing is submitted. *)
Theorem missing_target_leaves_names_typed :
  forall (row : Row) (fn ln : string) (s : State E),
    lookup "First Name" row = Some (CStr fn) ->
    lookup "Last Name" row = Some (CStr ln) ->
    lookup "Sales Target" row = None ->
    (forall c w, fst (respond E c w) = None) ->
    fst (fill_and_submit_sales_form E row s) = Raise (KeyError "Sales Target") /\
    trace (snd (fill_and_submit_sales_form E row s)) =
      trace s ++
      [Called BrowserPage;
       Called (PageFill "#firstname" (CStr fn));
       Called (PageFill "#lastname" (CStr ln));
       Log ERROR [Lit "Failed to submit form for "; FRow row; Lit ": ";
                  FExn (KeyError "Sales Target")]].
Proof.
  intros row fn ln s Hfn Hln Ht Hacc.
  unfold fill_and_submit_sales_form, page_fill, getitem.
  rewrite Hfn, Hln, Ht.
  unfold try_except, bind, page_click, page_select_option, browser_page,
    logger_info, logger_error, emit, ext, ret, raise. simpl.
  repeat match goal with
  | |- context [respond E ?c ?x] =>
      let H := fresh "H" in
      pose proof (Hacc c x) as H;
      destruct (respond E c x) as [[?e|] ?w]; simpl in H; [discriminate|];
      clear H; simpl
  end.
  rewrite <- !app_assoc. split; reflexivity.
Qed.

(** X8.  [fill_and_submit_sales_form] clicks Submit at most once, and only
    as the last of its calls, after the page request and the four field
    actions in source order with text in both name cells; it never acts on
    the page after the click. *)
Theorem submit_click_comes_last :
  forall (row : Row) (s : State E),
    exists t,
      trace (snd (fill_and_submit_sales_form E row s)) = trace s ++ t /\
      count is_submit_click t <= 1 /\
      (existsb is_submit_click t = true ->
       exists fn ln target sales,
         lookup "First Name" row = Some (CStr fn) /\
         lookup "Last Name" row = Some (CStr ln) /\
         lookup "Sales Target" row = Some target /\
         lookup "Sales" row = Some sales /\
         filter is_call t =
           firstn 6 (submission (CStr fn) (CStr ln) target sales)).
Proof.
  intros row s. exec_row;
    (eexists; split; [rewrite <- !app_assoc; reflexivity |]);
    (split; [unfold count; simpl; lia |]);
    simpl; intros Hc; try discriminate;
    do 4 eexists; repeat split; reflexivity.
Qed.

(** X9.  Whatever the rows hold and whatever the collaborators do, the
    loop over the rows leaves only log records, page requests and actions
    on the data-entry form in the trace: fills of the first-name,
    last-name and sales fields, selections of the target, clicks on
    Submit. *)
Theorem rows_act_on_the_form_only :
  forall (rows : list Row) (s : State E),
    exists t,
      trace (snd (process_rows E rows s)) = trace s ++ t /\
      forallb form_event t = true.
Proof.
  intros rows. change (emits form_event (process_rows E rows)). emits_tac.
Qed.

(** *** The finalizer *)

(** X10.  [end_process] makes its calls in the order page, screenshot,
    results region, PDF, logout, and stops at the first that raises, which
    it logs; it always returns.  The screenshot goes to
    output/sales_summary.png, and the PDF is rendered to
    output/sales_results.pdf from the markup that the read of the results
    region returned in this run, after the screenshot. *)
Theorem pdf_is_rendered_from_the_region :
  forall s : State E,
    end_process E s =
    let '(t1, r1, w1) := in_order E screenshot_script (world s) in
    match r1 with
    | Some e => (Ok tt, moved s w1 (t1 ++ [end_process_failed e]))
    | None =>
        match inner_html E "#sales-results" w1 with
        | (inr e, w2) =>
            (Ok tt,
             moved s w2
               (t1 ++ [Called (LocatorInnerHtml "#sales-results");
                       end_process_failed e]))
        | (inl html, w2) =>
            let '(t2, r2, w3) := in_order E (render_script html) w2 in
            (Ok tt,
             moved s w3
               (t1 ++ Called (LocatorInnerHtml "#sales-results") :: t2 ++
                match r2 with
                | Some e => [end_process_failed e]
                | None => []
                end))
        end
    end.
Proof.
  intros s.
  unfold end_process, export_steps, logout_steps, screenshot_script,
    render_script, end_process_failed, finalizer_start.
  change screenshot_path with "output/sales_summary.png".
  change pdf_path with "output/sales_results.pdf".
  exec; same_state.
Qed.

(** *** Budgets: how often a run does what *)

Section Budget.

Variable p : Event -> bool.

Lemma at_most_weaken {A} (m : M E A) (n n' : nat) :
  at_most p n m -> n <= n' -> at_most p n' m.
Proof.
  intros H Hn s. destruct (H s) as [t [Et Ct]]. exists t. split; [auto | lia].
Qed.

Lemma at_most_of_emits {A} (m : M E A) :
  emits (fun ev => negb (p ev)) m -> at_most p 0 m.
Proof.
  intros H s. destruct (H s) as [t [Et Ft]]. exists t. split; [auto|].
  rewrite (count_zero_forallb p t Ft). auto.
Qed.

Lemma at_most_emit (ev : Event) : at_most p (count p [ev]) (emit E ev).
Proof. intros s. exists [ev]. simpl. auto. Qed.

Lemma at_most_ext (c : Call) : at_most p (count p [Called c]) (ext E c).
Proof.
  intros s. exists [Called c]. unfold ext.
  destruct (respond E c (world s)) as [[e|] w]; simpl; auto.
Qed.

Lemma at_most_locator_inner_html (sel : string) :
  at_most p (count p [Called (LocatorInnerHtml sel)]) (locator_inner_html E sel).
Proof.
  intros s. exists [Called (LocatorInnerHtml sel)]. unfold locator_inner_html.
  destruct (inner_html E sel (world s)) as [[h|e] w]; simpl; auto.
Qed.

Lemma at_most_read_worksheet_as_table (name : string) (header : bool) :
  at_most p (count p [Called (ReadWorksheetAsTable name header)])
    (read_worksheet_as_table E name header).
Proof.
  intros s. exists [Called (ReadWorksheetAsTable name header)].
  unfold read_worksheet_as_table.
  destruct (read_table E name header (world s)) as [[h|e] w]; simpl; auto.
Qed.

Lemma at_most_bind {A B} (m : M E A) (k : A -> M E B) (n1 n2 : nat) :
  at_most p n1 m -> (forall a, at_most p n2 (k a)) ->
  at_most p (n1 + n2) (bind E m k).
Proof.
  intros Hm Hk s. unfold bind.
  destruct (Hm s) as [t1 [E1 C1]].
  destruct (m s) as [[a|e] s1]; simpl in *.
  - destruct (Hk a s1) as [t2 [E2 C2]].
    exists (t1 ++ t2). rewrite E2, E1, app_assoc, count_app. split; [auto | lia].
  - exists t1. split; [auto | lia].
Qed.

Lemma at_most_try_except {A} (m : M E A) (h : exn -> M E A) (n1 n2 : nat) :
  at_most p n1 m -> (forall e, at_most p n2 (h e)) ->
  at_most p (n1 + n2) (try_except E m h).
Proof.
  intros Hm Hh s. unfold try_except.
  destruct (Hm s) as [t1 [E1 C1]].
  destruct (m s) as [[a|e] s1]; simpl in *.
  - exists t1. split; [auto | lia].
  - destruct (Hh e s1) as [t2 [E2 C2]].
    exists (t1 ++ t2). rewrite E2, E1, app_assoc, count_app. split; [auto | lia].
Qed.

Lemma at_most_try_finally {A} (m : M E A) (fin : M E unit) (n1 n2 : nat) :
  at_most p n1 m -> at_most p n2 fin ->
  at_most p (n1 + n2) (try_finally E m fin).
Proof.
  intros Hm Hf s. unfold try_finally.
  destruct (Hm s) as [t1 [E1 C1]].
  destruct (m s) as [r s1]; simpl in *.
  destruct (Hf s1) as [t2 [E2 C2]].
  exists (t1 ++ t2).
  destruct (fin s1) as [[u|e] s2]; simpl in *;
    rewrite E2, E1, app_assoc, count_app; (split; [auto | lia]).
Qed.

(** [left] further attempts after the first: every attempt may spend the
    budget of [f], and every wait counts as one event. *)
Lemma at_most_retry_loop {A} (f : M E A) (d : Z) (n : nat) :
  at_most p n f ->
  forall left k,
    at_most p (S left * n + left * count p [Slept d]) (retry_loop E left k d f).
Proof.
  intros Hf left. induction left as [|left IH]; intros k s; simpl retry_loop;
    destruct (Hf s) as [t1 [E1 C1]];
    destruct (f s) as [[a|e] s1]; simpl fst in *; simpl snd in *.
  - exists t1. split; [auto | lia].
  - exists t1. split; [auto | lia].
  - exists t1. split; [auto | lia].
  - unfold bind, emit. simpl fst; simpl snd.
    match goal with
    | |- context [retry_loop E left (S k) d f ?s2] =>
        destruct (IH (S k) s2) as [t2 [E2 C2]]
    end.
    exists (t1 ++ [Slept d] ++ t2).
    simpl trace in E2. rewrite E2, E1, <- !app_assoc. split; [reflexivity|].
    rewrite !count_app. simpl in *. lia.
Qed.

End Budget.

Ltac budget_step :=
  first
    [ apply at_most_emit
    | apply at_most_ext
    | apply at_most_locator_inner_html
    | apply at_most_read_worksheet_as_table
    | eapply at_most_retry_loop
    | eapply at_most_bind; [ | intros ? ]
    | eapply at_most_try_except; [ | intros ? ]
    | eapply at_most_try_finally
    | apply at_most_of_emits; solve [emits_tac] ].

(** The budget of the whole task for the events that satisfy a predicate:
    the bound is computed along the source, then compared with [n]. *)
Ltac budget n :=
  eapply at_most_weaken with (n' := n);
  [ unfold robot_spare_bin_python, guarded_main, main_steps, end_process,
      export_steps, logout_steps, process_sales_data, load_rows,
      download_excel_file, retry, download_attempt, initialize_bot, log_in,
      close_workbook, open_workbook, http_download, pdf_html_to_pdf,
      page_screenshot, page_click, browser_page, browser_goto,
      browser_configure, logger_info, logger_error;
    repeat budget_step
  | vm_compute; lia ].

Lemma same_suffix (s : State E) (l t1 t2 : list Event) :
  l = trace s ++ t1 -> l = trace s ++ t2 -> t2 = t1.
Proof. intros H1 H2. rewrite H1 in H2. apply app_inv_head in H2. auto. Qed.

(** X11.  Whatever the collaborators do and however many rows the table
    has, one run of the task downloads at most three times and waits at
    most twice, opens and closes the workbook at most once each, clicks the
    login button at most once, takes at most one screenshot and clicks
    logout at most once. *)
Theorem one_run_budget :
  forall s : State E,
    exists t,
      trace (snd (robot_spare_bin_python E s)) = trace s ++ t /\
      count is_download_call t <= 3 /\
      count is_sleep t <= 2 /\
      count is_open_call t <= 1 /\
      count is_close_call t <= 1 /\
      count is_login_click t <= 1 /\
      count is_screenshot_call t <= 1 /\
      count is_logout_click t <= 1.
Proof.
  intros s.
  assert (H1 : at_most is_download_call 3 (robot_spare_bin_python E)) by budget 3.
  assert (H2 : at_most is_sleep 2 (robot_spare_bin_python E)) by budget 2.
  assert (H3 : at_most is_open_call 1 (robot_spare_bin_python E)) by budget 1.
  assert (H4 : at_most is_close_call 1 (robot_spare_bin_python E)) by budget 1.
  assert (H5 : at_most is_login_click 1 (robot_spare_bin_python E)) by budget 1.
  assert (H6 : at_most is_screenshot_call 1 (robot_spare_bin_python E)) by budget 1.
  assert (H7 : at_most is_logout_click 1 (robot_spare_bin_python E)) by budget 1.
  destruct (H1 s) as [t [Et C1]]. exists t. split; [exact Et|].
  destruct (H2 s) as [t2 [E2 C2]]. rewrite (same_suffix s _ t t2 Et E2) in C2.
  destruct (H3 s) as [t3 [E3 C3]]. rewrite (same_suffix s _ t t3 Et E3) in C3.
  destruct (H4 s) as [t4 [E4 C4]]. rewrite (same_suffix s _ t t4 Et E4) in C4.
  destruct (H5 s) as [t5 [E5 C5]]. rewrite (same_suffix s _ t t5 Et E5) in C5.
  destruct (H6 s) as [t6 [E6 C6]]. rewrite (same_suffix s _ t t6 Et E6) in C6.
  destruct (H7 s) as [t7 [E7 C7]]. rewrite (same_suffix s _ t t7 Et E7) in C7.
  repeat split; assumption.
Qed.

(** *** The workbook *)

Lemma keeps_emit (ev : Event) : keeps_workbook (emit E ev).
Proof. intros s. reflexivity. Qed.

Lemma keeps_ret {A} (a : A) : keeps_workbook (ret E a).
Proof. intros s. reflexivity. Qed.

Lemma keeps_raise {A} (e : exn) : keeps_workbook (@raise E A e).
Proof. intros s. reflexivity. Qed.

Lemma keeps_ext (c : Call) : keeps_workbook (ext E c).
Proof.
  intros s. unfold ext. destruct (respond E c (world s)) as [[e|] w]; reflexivity.
Qed.

Lemma keeps_bind {A B} (m : M E A) (k : A -> M E B) :
  keeps_workbook m -> (forall a, keeps_workbook (k a)) ->
  keeps_workbook (bind E m k).
Proof.
  intros Hm Hk s. unfold bind. specialize (Hm s).
  destruct (m s) as [[a|e] s1]; simpl in *; [rewrite Hk|]; auto.
Qed.

Lemma keeps_try_except {A} (m : M E A) (h : exn -> M E A) :
  keeps_workbook m -> (forall e, keeps_workbook (h e)) ->
  keeps_workbook (try_except E m h).
Proof.
  intros Hm Hh s. unfold try_except. specialize (Hm s).
  destruct (m s) as [[a|e] s1]; simpl in *; [|rewrite Hh]; auto.
Qed.

Lemma keeps_getitem (r : Row) (k : string) : keeps_workbook (getitem E r k).
Proof.
  unfold getitem. destruct (lookup k r); [apply keeps_ret | apply keeps_raise].
Qed.

Lemma keeps_page_fill (sel : string) (v : Cell) : keeps_workbook (page_fill E sel v).
Proof.
  unfold page_fill. destruct (is_str v).
  - apply keeps_ext.
  - apply keeps_bind; [apply keeps_emit | intros; apply keeps_raise].
Qed.

Lemma keeps_process_row (row : Row) : keeps_workbook (process_row E row).
Proof.
  unfold process_row, fill_and_submit_sales_form, page_click,
    page_select_option, browser_page, logger_info, logger_error.
  repeat first
    [ apply keeps_emit | apply keeps_ret | apply keeps_raise | apply keeps_ext
    | apply keeps_getitem | apply keeps_page_fill
    | apply keeps_bind; [ | intros ? ]
    | apply keeps_try_except; [ | intros ? ] ].
Qed.

Lemma keeps_process_rows (rows : list Row) : keeps_workbook (process_rows E rows).
Proof.
  induction rows as [|row rest IH]; simpl.
  - apply keeps_ret.
  - apply keeps_bind; [apply keeps_process_row | intros; exact IH].
Qed.

(** X12.  When the load step returns, the workbook is closed, the close
    call is the last thing the load step did (so no row is processed while
    the workbook is open), and the workbook is still closed when
    [process_sales_data] returns. *)
Theorem workbook_closed_before_rows :
  forall (s s1 : State E) (rows : list Row),
    load_rows E s = (Ok rows, s1) ->
    workbook_open s1 = false /\
    (exists t, trace s1 = trace s ++ t ++ [Called CloseWorkbook]) /\
    workbook_open (snd (process_sales_data E s)) = false.
Proof.
  intros s s1 rows Hload.
  assert (Hc : workbook_open s1 = false).
  { pose proof (load_rows_closes_on_success s) as H. rewrite Hload in H. exact H. }
  split; [exact Hc | split].
  - revert Hload. unfold load_rows, bind.
    destruct (emits_run any_event (download_excel_file E) s _ _
      ltac:(emits_tac) (surjective_pairing _)) as [td [Ed _]].
    destruct (download_excel_file E s) as [[u|e] s0]; simpl in *;
      [|discriminate].
    unfold files_new, open_workbook, close_workbook, set_workbook. exec;
      intros H; inversion H; subst; simpl.
    exists (td ++ [Called (OpenWorkbook "SalesData.xlsx");
                   Called (ReadWorksheetAsTable "data" true)]).
    rewrite Ed, <- !app_assoc. reflexivity.
  - unfold process_sales_data, try_except, bind. rewrite Hload.
    unfold logger_info, emit. simpl.
    match goal with
    | |- context [process_rows E rows ?s0] =>
        pose proof (keeps_process_rows rows s0) as Hk;
        pose proof (process_rows_ok rows s0) as Hok;
        destruct (process_rows E rows s0) as [[u|e] s2]
    end; simpl in *; [congruence | discriminate].
Qed.

End Properties.

(* ================================================================== *)
(** * Concrete runs *)

(** C1, as stated, fails: without a user name [initialize_bot] raises, and
    the run still executes the finalizer once, although the batch phase was
    never attempted. *)
Lemma finalizer_runs_after_failed_initialize :
  fst (initialize_bot env_no_username (started (initial env_no_username tt)))
    = Raise (ProcessError "Initialization failed.") /\
  count is_finalizer_start (run_trace env_no_username tt) = 1 /\
  count is_screenshot_call (run_trace env_no_username tt) = 1 /\
  existsb is_download_start (run_trace env_no_username tt) = false.
Proof. vm_compute. repeat split. Qed.

(** C2, as stated, fails: of two rows without the name columns none gets
    a submission attempt (no page request, no call at all), although both
    are logged as failures and the loop returns normally. *)
Lemma nameless_rows_are_not_submitted :
  List.length headerless_rows = 2 /\
  fst (process_rows env_happy headerless_rows (initial env_happy tt)) = Ok tt /\
  count is_page_call
    (trace (snd (process_rows env_happy headerless_rows (initial env_happy tt)))) = 0 /\
  count is_call
    (trace (snd (process_rows env_happy headerless_rows (initial env_happy tt)))) = 0 /\
  count is_row_error
    (trace (snd (process_rows env_happy headerless_rows (initial env_happy tt)))) = 2.
Proof. vm_compute. repeat split. Qed.

(** C3, as stated, fails: when all three attempts fail, the exception that
    leaves [download_excel_file] is tenacity's [RetryError]; neither its
    text nor the message of the [ProcessError] it wraps contains the URL,
    and the message of the [ProcessError] does not contain the attempt
    count either. *)
Lemma exhausted_download_error_names_no_url :
  fst (download_excel_file env_download_down (initial env_download_down tt))
    = Raise (RetryError 3 (ProcessError "Failed to download Excel file.")) /\
  contains SALES_DATA_URL
    (exn_text (RetryError 3 (ProcessError "Failed to download Excel file."))) = false /\
  contains SALES_DATA_URL
    (exn_text (ProcessError "Failed to download Excel file.")) = false /\
  contains "3" (exn_text (ProcessError "Failed to download Excel file.")) = false /\
  fst (process_sales_data env_download_down (initial env_download_down tt))
    = Raise (ProcessError "Failed to process sales data.").
Proof. vm_compute. repeat split. Qed.


(** C5: when reading the worksheet raises, [process_sales_data] fails with
    the workbook still open; [close_workbook] was never called. *)
Theorem workbook_left_open_when_read_fails :
  fst (process_sales_data env_read_fails (initial env_read_fails tt))
    = Raise (ProcessError "Failed to process sales data.") /\
  workbook_open (snd (process_sales_data env_read_fails (initial env_read_fails tt)))
    = true /\
  count is_close_call
    (trace (snd (process_sales_data env_read_fails (initial env_read_fails tt)))) = 0 /\
  workbook_open (snd (robot_spare_bin_python env_read_fails (initial env_read_fails tt)))
    = true.
Proof. vm_compute. repeat split. Qed.

(** C6, as stated, fails: the run reaches the finalizer, the screenshot
    raises, and the logout click is never attempted. *)
Lemma screenshot_failure_skips_logout :
  count is_finalizer_start (run_trace env_screenshot_fails tt) = 1 /\
  count is_screenshot_call (run_trace env_screenshot_fails tt) = 1 /\
  existsb is_logout_click (run_trace env_screenshot_fails tt) = false /\
  last (run_trace env_screenshot_fails tt) finalizer_start =
    Log ERROR [Lit "End process failed: "; FExn (LibError "collaborator failed")].
Proof. vm_compute. repeat split. Qed.

(** ** The theorems at concrete inputs *)


(** C8 without a user name. *)
Lemma missing_credentials_fail_before_any_call_witness :
  (truthy (USERNAME env_no_username) = false \/
   truthy (PASSWORD env_no_username) = false) /\
  initialize_bot env_no_username (initial env_no_username tt) =
    (Raise (ProcessError "Initialization failed."),
     logged (initial env_no_username tt)
       [Log INFO [Lit "Initializing browser..."];
        Log ERROR [Lit "Credentials are missing in the .env file."];
        Log ERROR
          [Lit "Initialization failed: ";
           FExn (ProcessError
             "Environment variables USERNAME and PASSWORD are required.")]]).
Proof.
  split; [left; reflexivity |].
  exact (missing_credentials_fail_before_any_call env_no_username
           (initial env_no_username tt) (or_introl eq_refl)).
Defined.

(** C10 at a record with numbers in the target and sales cells, and at a
    record with a number as first name. *)
Lemma names_unconverted_numbers_coerced_witness :
  (fst (fill_and_submit_sales_form env_happy jane (initial env_happy tt)) = Ok tt /\
   trace (snd (fill_and_submit_sales_form env_happy jane (initial env_happy tt))) =
     [Called BrowserPage;
      Called (PageFill "#firstname" (CStr "Jane"));
      Called (PageFill "#lastname" (CStr "Doe"));
      Called (PageSelectOption "#salestarget" "200");
      Called (PageFill "#salesresult" (CStr "150"));
      Called (PageClick "text=Submit");
      Log INFO [Lit "Form submitted for "; FCell (CStr "Jane"); Lit " ";
                FCell (CStr "Doe")]]) /\
  (is_ok (fst (fill_and_submit_sales_form env_happy seven (initial env_happy tt)))
     = false /\
   fst (process_row env_happy seven (initial env_happy tt)) = Ok tt).
Proof.
  split.
  - exact (proj1 (names_unconverted_numbers_coerced env_happy jane
             (CStr "Jane") (CStr "Doe") (CInt 200) (CInt 150)
             (initial env_happy tt) eq_refl eq_refl eq_refl eq_refl)
             eq_refl (fun c w => eq_refl)).
  - pose proof (proj2 (names_unconverted_numbers_coerced env_happy seven
             (CInt 7) (CStr "Roe") (CInt 100) (CInt 90)
             (initial env_happy tt) eq_refl eq_refl eq_refl eq_refl)
             eq_refl) as H.
    exact (conj (proj1 H) (proj1 (proj2 H))).
Defined.

(** ** Further runs *)

(** An empty password is treated like a missing one: nothing is called
    before [initialize_bot] fails. *)
Example empty_password_run :
  fst (initialize_bot env_empty_password (initial env_empty_password tt))
    = Raise (ProcessError "Initialization failed.") /\
  count is_call
    (trace (snd (initialize_bot env_empty_password (initial env_empty_password tt))))
    = 0.
Proof. vm_compute. repeat split. Qed.

(** The results region is not found: the task still returns normally, the
    records of the batch are as in the run where the export works, and the
    failure is the last record of the log. *)
Example results_region_missing_run :
  fst (robot_spare_bin_python env_no_results_region
         (initial env_no_results_region tt)) = Ok tt /\
  filter (fun ev => is_row_error ev || is_form_submitted ev)
    (run_trace env_no_results_region tt) =
  filter (fun ev => is_row_error ev || is_form_submitted ev)
    (run_trace env_happy tt) /\
  last (run_trace env_no_results_region tt) finalizer_start =
    Log ERROR
      [Lit "End process failed: ";
       FExn (LibError "Locator.inner_html: no element matches #sales-results")].
Proof. vm_compute. repeat split. Qed.

(** Three records, the second one rejected: one failure, two submitted
    forms, and both artifacts are still requested. *)
Example three_records_run :
  count is_row_error (run_trace env_happy tt) = 1 /\
  count is_form_submitted (run_trace env_happy tt) = 2 /\
  count is_screenshot_call (run_trace env_happy tt) = 1 /\
  existsb is_logout_click (run_trace env_happy tt) = true.
Proof. vm_compute. repeat split. Qed.

(** ** Further properties at concrete inputs *)

(** X7 at a record without the target column. *)
Lemma missing_target_leaves_names_typed_witness :
  lookup "First Name" no_target = Some (CStr "Jane") /\
  lookup "Last Name" no_target = Some (CStr "Doe") /\
  lookup "Sales Target" no_target = None /\
  (forall c w, fst (respond env_happy c w) = None) /\
  fst (fill_and_submit_sales_form env_happy no_target (initial env_happy tt))
    = Raise (KeyError "Sales Target") /\
  trace (snd (fill_and_submit_sales_form env_happy no_target (initial env_happy tt))) =
    [Called BrowserPage;
     Called (PageFill "#firstname" (CStr "Jane"));
     Called (PageFill "#lastname" (CStr "Doe"));
     Log ERROR [Lit "Failed to submit form for "; FRow no_target; Lit ": ";
                FExn (KeyError "Sales Target")]].
Proof.
  do 3 (split; [reflexivity |]).
  split; [intros c w; reflexivity |].
  exact (missing_target_leaves_names_typed env_happy no_target "Jane" "Doe"
           (initial env_happy tt) eq_refl eq_refl eq_refl
           (fun c w => eq_refl)).
Defined.

(** X12 at the sample table. *)
Lemma workbook_closed_before_rows_witness :
  load_rows env_happy (initial env_happy tt) =
    (Ok sample_rows, snd (load_rows env_happy (initial env_happy tt))) /\
  workbook_open (snd (load_rows env_happy (initial env_happy tt))) = false /\
  (exists t, trace (snd (load_rows env_happy (initial env_happy tt))) =
             trace (initial env_happy tt) ++ t ++ [Called CloseWorkbook]) /\
  workbook_open (snd (process_sales_data env_happy (initial env_happy tt))) = false.
Proof.
  split; [reflexivity |].
  exact (workbook_closed_before_rows env_happy (initial env_happy tt)
           (snd (load_rows env_happy (initial env_happy tt))) sample_rows eq_refl).
Defined.

(** X13.  Against a resource whose first [n] downloads fail and whose
    later ones return, [download_excel_file] returns exactly when [n] is
    below 3; it makes [n + 1] attempts, at most 3, and waits [n] times, at
    most twice. *)
Theorem download_against_flaky_resource :
  forall n : nat,
    is_ok (fst (download_excel_file (flaky n) (initial (flaky n) 0)))
      = Nat.ltb n 3 /\
    count is_download_call
      (trace (snd (download_excel_file (flaky n) (initial (flaky n) 0))))
      = Nat.min (S n) 3 /\
    count is_sleep
      (trace (snd (download_excel_file (flaky n) (initial (flaky n) 0))))
      = Nat.min n 2 /\
    world (snd (download_excel_file (flaky n) (initial (flaky n) 0)))
      = Nat.min (S n) 3.
Proof.
  intros [|[|[|n]]]; vm_compute; repeat split.
Qed.

(** Every row of the table fails, and the run still ends its phases with
    the success record. *)
Example all_rows_fail_run :
  count is_row_error (run_trace env_headerless tt) =
    List.length headerless_rows /\
  count is_form_submitted (run_trace env_headerless tt) = 0 /\
  existsb (fun ev => match ev with
                     | Log INFO [Lit "Process completed successfully."] => true
                     | _ => false
                     end) (run_trace env_headerless tt) = true.
Proof. vm_compute. repeat split. Qed.

(** On a site whose second click on Submit raises, three rows of text give
    three submission attempts, one failure (the second row) and two
    submitted forms. *)
Example second_submit_fails_run :
  batch_outcome second_submit_fails text_rows 0 =
    (trace (snd (process_rows second_submit_fails text_rows
                   (initial second_submit_fails 0))),
     [nth 1 text_rows []], 3) /\
  count is_page_call
    (trace (snd (process_rows second_submit_fails text_rows
                   (initial second_submit_fails 0)))) = 3 /\
  count is_row_error
    (trace (snd (process_rows second_submit_fails text_rows
                   (initial second_submit_fails 0)))) = 1 /\
  count is_form_submitted
    (trace (snd (process_rows second_submit_fails text_rows
                   (initial second_submit_fails 0)))) = 2.
Proof. vm_compute. repeat split. Qed.
